(** * Hokie Event Sphere: recommender and keyword classifier

    A shallow embedding of the two services of the repository:
    - [test-recomm.py]: the feature space, the user and event vector
      encoders and the [/recommend/{user_id}] endpoint;
    - [main_new-1.py]: the keyword classifier [infer_category_from_title]
      and the coordinate fields [process_ticketmaster_event] stores.

    Conventions of the embedding.
    - A numpy [float64] cell is an exact integer ([Z]): every score the
      encoders compute is a sum of integers, which [float64] holds
      exactly below [2^53], and coordinates are carried through
      unchanged. The properties that compute with the sums are stated
      under [float64_exact], which keeps every cell in that range.
    - A Python [dict] read with a subscript ([d["k"]]) has that key as a
      record field; a key read with [d.get("k", default)] is an [option]
      field, or a lookup in a finite map when the key itself matters.
    - A raised exception is the left summand of [exn + A]. *)

From Stdlib Require Import ZArith QArith Qminmax String Ascii.
From stdpp Require Import list sorting gmap strings.

Local Open Scope string_scope.
Local Open Scope Z_scope.
Local Open Scope list_scope.

(** ** Feature space ([test-recomm.py], lines 26-42) *)

Definition categories : list string :=
  [ "Technology"; "Sports"; "Music"; "Art"; "Travel"; "Gaming"; "Fitness";
    "Social Events"; "Others" ].

Definition subcategories : list string :=
  [ "Software & Web Development"; "Data Science & Machine Learning";
    "Cybersecurity & Privacy"; "Tech Innovation & Startups";
    "Team Sports"; "Outdoor & Adventure Sports"; "Individual Sports";
    "Live Performances & Concerts"; "Music Festivals";
    "Performing Arts"; "Art Exhibitions & Workshops";
    "Adventure Travel & Expeditions"; "Cultural & Heritage Tours";
    "Weekend Getaways & Road Trips";
    "eSports & Competitive Gaming"; "Board Games & Tabletop Meetups";
    "Virtual Reality & Tech Gaming";
    "Yoga & Mindfulness"; "Outdoor Fitness";
    "Networking & Professional Meetups";
    "Community Volunteering & Social Causes"; "Social Gatherings & Parties";
    "Book Clubs & Interest-Based Groups";
    "Sub-Others" ].

Definition feature_space : list string := categories ++ subcategories.

(** [index fs label] is [Some (fs.index(label))] when [label in fs] and
    [None] when [label not in fs] (where [fs.index] would raise). *)
Fixpoint index (fs : list string) (label : string) : option nat :=
  match fs with
  | [] => None
  | x :: rest => if decide (x = label) then Some 0%nat else S <$> index rest label
  end.

(** ** Stored documents *)

(** A user profile: [user_profile["emailAddresses"]] is subscripted,
    [user_profile.get("interests", [])] is optional. The identifier type
    is that of the [bson] library. *)
Record user_profile (oid : Type) := UserProfile {
  _id : oid;
  emailAddresses : string;
  interests : option (list string)
}.
Arguments UserProfile {oid} _ _ _.
Arguments _id {oid} _.
Arguments emailAddresses {oid} _.
Arguments interests {oid} _.

(** One entry of [click_counts["subCategories"]]. *)
Record subcategory_info := SubcategoryInfo {
  category : option string;
  categoryCount : option Z
}.

(** A click-count document, keyed by the user's address. *)
Record click_counts := ClickCounts {
  userId : string;
  subCategories : option (list subcategory_info)
}.

(** An event document as the recommender reads it: its text fields and
    its number fields by key (both read with [dict.get]), and the
    addresses of its [rsvps] array. *)
Record event := Event {
  text : gmap string string;
  number : gmap string Z;
  rsvps : list string
}.

(** [d.get(key, dflt)] on a text field and on a number field. *)
Definition get_text (d : event) (key dflt : string) : string :=
  default dflt (text d !! key).

Definition get_number (d : event) (key : string) (dflt : Z) : Z :=
  default dflt (number d !! key).

(** ** Vector encoder ([test-recomm.py], lines 86-134) *)

(** [np.zeros(n)]. *)
Definition np_zeros (n : nat) : list Z := replicate n 0.

(** The guarded update of one cell:
    [if label in fs: vector[fs.index(label)] = f(vector[fs.index(label)])]. *)
Definition at_label (fs : list string) (label : string) (f : Z → Z)
    (vector : list Z) : list Z :=
  match index fs label with
  | Some i => alter f i vector
  | None => vector
  end.

(** First loop: [vector[...] = 1] for every interest in the feature space. *)
Definition encode_interests (fs : list string) (user_interests : list string)
    (vector : list Z) : list Z :=
  foldl (λ vector interest, at_label fs interest (λ _, 1) vector)
        vector user_interests.

(** Second loop: [vector[...] += count] for every click-count entry. *)
Definition encode_clicks (fs : list string) (infos : list subcategory_info)
    (vector : list Z) : list Z :=
  foldl (λ vector subcategory_info,
           let subcategory := default "" (category subcategory_info) in
           let count := default 0 (categoryCount subcategory_info) in
           at_label fs subcategory (λ x, x + count) vector)
        vector infos.

(** Third loop: [+= 2] for the main category and for the subcategory of
    every RSVP'd event. *)
Definition encode_rsvps (fs : list string) (rsvp_counts : list event)
    (vector : list Z) : list Z :=
  foldl (λ vector rsvp_event,
           let main_category := get_text rsvp_event "main_category" "" in
           let sub_category := get_text rsvp_event "sub_category" "" in
           let vector := at_label fs main_category (λ x, x + 2) vector in
           at_label fs sub_category (λ x, x + 2) vector)
        vector rsvp_counts.

Definition create_user_vector {oid} (profile : user_profile oid)
    (clicks : click_counts) (rsvp_counts : list event)
    (fs : list string) : list Z :=
  let vector := np_zeros (length fs) in
  let user_interests := default [] (interests profile) in
  let vector := encode_interests fs user_interests vector in
  let vector := encode_clicks fs (default [] (subCategories clicks)) vector in
  let vector := encode_rsvps fs rsvp_counts vector in
  vector ++ [0; 0].

Definition create_event_vector (ev : event) (fs : list string) : list Z :=
  let vector := np_zeros (length fs) in
  let main_category := get_text ev "main_category" "" in
  let sub_category := get_text ev "sub_category" "" in
  let vector := at_label fs main_category (λ _, 1) vector in
  let vector := at_label fs sub_category (λ _, 1) vector in
  let latitude := get_number ev "Latitude" 0 in
  let longitude := get_number ev "Longitude" 0 in
  vector ++ [latitude; longitude].

(** ** Keyword classifier ([main_new-1.py], lines 179-225) *)

(** The keys of [event_data] the classifier reads: ['title'] and
    ['venue'] are subscripted, ['description'] is read with [get]. *)
Record event_data := EventData {
  title : string;
  description : option string;
  venue : string
}.

(** The dictionary the classifier returns. *)
Record categorization := Categorization {
  main_category : string;
  sub_category : string;
  enhanced_description : string
}.

(** [kw in s] on strings: [kw] occurs in [s] as a substring. *)
Fixpoint starts_with (kw s : string) : bool :=
  match kw, s with
  | EmptyString, _ => true
  | String a kw', String b s' => if decide (a = b) then starts_with kw' s' else false
  | String _ _, EmptyString => false
  end.

Fixpoint contains (s kw : string) : bool :=
  starts_with kw s ||
  match s with
  | EmptyString => false
  | String _ s' => contains s' kw
  end.

(** [category_keywords], in the insertion order that [dict.items()]
    iterates in. *)
Definition category_keywords : list (string * list string) :=
  [ ("Technology", ["software"; "web"; "development"; "machine learning";
                    "cybersecurity"; "tech"; "startup"]);
    ("Sports", ["game"; "sports"; "basketball"; "football"; "baseball";
                "hockey"; "match"; "tournament"; "team"; "adventure"]);
    ("Music", ["concert"; "music"; "show"; "performance"; "band"; "singer";
               "live"]);
    ("Art", ["festival"; "art"; "exhibition"; "museum"; "performing";
             "workshop"]);
    ("Travel", ["tour"; "expedition"; "travel"; "heritage"; "getaway"]);
    ("Gaming", ["esports"; "gaming"; "virtual reality"; "board games"]);
    ("Fitness", ["yoga"; "fitness"; "mindfulness"; "outdoor"]);
    ("Social Events", ["party"; "gathering"; "meetup"; "social"; "networking";
                       "celebration"; "volunteer"; "club"]);
    ("Others", ["miscellaneous"; "other"]) ].

Definition subcategory_mappings : gmap string string :=
  list_to_map
    [ ("Technology", "Tech Innovation & Startups");
      ("Sports", "Team Sports");
      ("Music", "Live Performances & Concerts");
      ("Art", "Art Exhibitions & Workshops");
      ("Travel", "Adventure Travel & Expeditions");
      ("Gaming", "eSports & Competitive Gaming");
      ("Fitness", "Yoga & Mindfulness");
      ("Social Events", "Networking & Professional Meetups");
      ("Others", "Sub-Others") ].

(** [any(keyword in combined_text for keyword in keywords)]. *)
Definition any_keyword (combined_text : string) (keywords : list string) : bool :=
  existsb (contains combined_text) keywords.

(** The [for category, keywords in ...: if any(...): return ...] loop:
    the category of the first rule with a keyword in the text. *)
Fixpoint first_match (combined_text : string)
    (rules : list (string * list string)) : option string :=
  match rules with
  | [] => None
  | (cat, keywords) :: rest =>
      if any_keyword combined_text keywords then Some cat
      else first_match combined_text rest
  end.

(** [x or y] on strings: [y] when [x] is missing or empty. *)
Definition or_else (x : option string) (y : string) : string :=
  match x with
  | Some (String a s) => String a s
  | _ => y
  end.

Section Classifier.
(** [str.lower], taken as it comes from the Python runtime. *)
Variable lower : string → string.

Definition combined_text (event_data : event_data) : string :=
  let title_lower := lower (title event_data) in
  let desc_lower := lower (default "" (description event_data)) in
  title_lower +:+ " " +:+ desc_lower.

(** [None] stands for the [KeyError] of [subcategory_mappings[category]]. *)
Definition infer_category_from_title (event_data : event_data)
    : option categorization :=
  let text := combined_text event_data in
  let description :=
    or_else (description event_data)
      ("Join us for " +:+ title event_data +:+ " at " +:+ venue event_data +:+ "!") in
  match first_match text category_keywords with
  | Some cat =>
      sub ← subcategory_mappings !! cat;
      Some (Categorization cat sub description)
  | None => Some (Categorization "Others" "Sub-Others" description)
  end.
End Classifier.

(** [str.lower] on ASCII text. *)
Definition ascii_lower (c : ascii) : ascii :=
  let n := nat_of_ascii c in
  if (65 <=? n)%nat && (n <=? 90)%nat then ascii_of_nat (n + 32) else c.

Fixpoint str_lower (s : string) : string :=
  match s with
  | EmptyString => EmptyString
  | String c s' => String (ascii_lower c) (str_lower s')
  end.

(** ** Stored coordinates ([main_new-1.py], lines 265-323) *)

(** The fields of a Ticketmaster event that [process_ticketmaster_event]
    copies: its name and description, and the name and location of its
    first venue. The record describes an entry that has a first venue
    and a first image, or no ['venues'] and no ['images'] key at all; on
    an empty list of either the function returns [None]. *)
Record ticketmaster_event := TicketmasterEvent {
  name : option string;
  tm_description : option string;
  venue_name : option string;
  location_latitude : option Z;
  location_longitude : option Z
}.

(** A number field is written when the feed has it. *)
Definition put_number (key : string) (v : option Z) (m : gmap string Z)
    : gmap string Z :=
  match v with
  | Some z => <[key := z]> m
  | None => m
  end.

(** [process_ticketmaster_event], restricted to the text fields, the
    coordinates and the [rsvps] array of the document it returns (dates,
    fee, image and organizer fields are left out: the document of the
    source always has a ["startDate"], the parsed date or the current
    time, which this one does not carry). [categorize] stands for
    [categorize_with_gpt], whose answer is merged with [dict.update]; a
    failure of it makes the function return [None]. *)
Definition process_ticketmaster_event
    (categorize : event_data → option categorization)
    (ev : ticketmaster_event) : option event :=
  let event_data :=
    EventData (default "" (name ev))
              (Some (default "" (tm_description ev)))
              (default "Venue Not Specified" (venue_name ev)) in
  enhanced ← categorize event_data;
  Some (Event
          (<["main_category" := main_category enhanced]>
           (<["sub_category" := sub_category enhanced]>
            (<["description" := enhanced_description enhanced]>
             (<["title" := title event_data]>
              (<["venue" := venue event_data]>
               (<["organizerEmail" := "events@ticketmaster.com"]> ∅))))))
          (put_number "latitude" (location_latitude ev)
             (put_number "longitude" (location_longitude ev) ∅))
          []).

(** ** Nearest-neighbour index *)

(** Order of two query results: by distance. *)
Definition closer (a b : nat * Q) : Prop := (a.2 <= b.2)%Q.

#[global] Instance closer_dec : RelDecision closer.
Proof.
  intros a b. unfold closer.
  destruct (Qlt_le_dec b.2 a.2) as [Hlt | Hle].
  - right. by apply Qlt_not_le.
  - by left.
Defined.

Section Index.
(** The metric of the index (angular, in the endpoint), as a function
    from the query vector and an item vector to a distance. *)
Variable distance : list Z → list Z → Q.

(** Modelled from the spec: the nearest-neighbour index is the [annoy]
    package, whose code is not in this repository. [build] takes the
    ordered sequence of (id, vector) items; the built index keeps them. *)
Definition build (vectors : list (nat * list Z)) : list (nat * list Z) :=
  vectors.

(** Modelled from the spec: [query] of the [annoy] index, whose code is
    not in this repository: the (id, distance) pairs of the indexed
    items in ascending order of distance, cut to the first [k]. *)
Definition query (ix : list (nat * list Z)) (q : list Z) (k : nat)
    : list (nat * Q) :=
  take k (merge_sort closer ((λ item, (item.1, distance q item.2)) <$> ix)).
End Index.

(** ** The recommendation endpoint ([test-recomm.py], lines 44-84) *)

(** The exceptions of the endpoint; each is an [Exception] in Python. *)
Inductive exn :=
| HTTPException (status_code : Z)
| InvalidId
| KeyError (key : string)
| IndexError.

#[global] Instance exn_ret : MRet (sum exn) := λ A a, inr a.
#[global] Instance exn_bind : MBind (sum exn) := λ A B f m,
  match m with
  | inl e => inl e
  | inr a => f a
  end.

Definition raise {A} (e : exn) : exn + A := inl e.

(** [try: body except Exception as e: handler]. Every constructor of
    [exn] is an [Exception], so the handler sees each of them. *)
Definition try_except {A} (body : exn + A) (handler : exn → exn + A) : exn + A :=
  match body with
  | inl e => handler e
  | inr a => inr a
  end.

(** [d[key]] on the text fields of an event. *)
Definition subscript (d : event) (key : string) : exn + string :=
  match text d !! key with
  | Some s => mret s
  | None => raise (KeyError key)
  end.

(** The three collections of [events_db]. *)
Record database (oid : Type) := Database {
  userprofiles : list (user_profile oid);
  clickcounts : list click_counts;
  events : list event
}.
Arguments Database {oid} _ _ _.
Arguments userprofiles {oid} _.
Arguments clickcounts {oid} _.
Arguments events {oid} _.

(** One entry of ["recommended_events"]. *)
Record recommendation := Recommendation {
  rec_event : string;
  rec_distance : Q
}.

(** [collection.find_one(filter)]: the first matching document. *)
Definition find_one {A} (P : A → Prop) `{∀ x, Decision (P x)} (l : list A)
    : option A :=
  head (filter P l).

Section Recommend.
Context {oid : Type} `{EqDecision oid}.
(** [bson.ObjectId(s)]: [None] stands for [InvalidId]. *)
Variable ObjectId : string → option oid.
Variable distance : list Z → list Z → Q.

(** The body of the [try] block. [top_n] is a natural number: the
    query is specified for [k >= 0]. *)
Definition recommend_body (db : database oid) (user_id : string)
    (top_n : nat) : exn + list recommendation :=
  key ← from_option mret (raise InvalidId) (ObjectId user_id);
  let user_profile := find_one (λ p, _id p = key) (userprofiles db) in
  match user_profile with
  | None => raise (HTTPException 404)
  | Some user_profile =>
      let clicks :=
        default (ClickCounts "" (Some []))
          (find_one (λ c, userId c = emailAddresses user_profile)
                    (clickcounts db)) in
      let rsvp_counts :=
        filter (λ ev, emailAddresses user_profile ∈ rsvps ev) (events db) in
      let user_vector :=
        create_user_vector user_profile clicks rsvp_counts feature_space in
      let events := events db in
      let annoy_index :=
        build (imap (λ idx ev, (idx, create_event_vector ev feature_space))
                    events) in
      let similar_events_idx := query distance annoy_index user_vector top_n in
      mapM (λ '(idx, dist),
              ev ← from_option mret (raise IndexError) (events !! idx);
              event_title ← subscript ev "title";
              mret (Recommendation event_title dist))
           similar_events_idx
  end.

(** The endpoint: the [try] block under its [except Exception] handler,
    which re-raises as a 500. The [detail] text of an [HTTPException] is
    not modelled. *)
Definition recommend_events (db : database oid) (user_id : string)
    (top_n : nat) : exn + list recommendation :=
  try_except (recommend_body db user_id top_n)
             (λ e, raise (HTTPException 500)).
End Recommend.

(** ** The GPT categorizer ([main_new-1.py], lines 30-177) *)

(** The validation list of [categorize_with_gpt]. *)
Definition main_categories : list string :=
  [ "Technology"; "Sports"; "Music"; "Art"; "Travel"; "Gaming"; "Fitness";
    "Social Events"; "Others" ].

(** The [if / elif / else] chain that replaces a category the validation
    list does not have. *)
Definition inline_fallback (event_text : string) : string * string :=
  if any_keyword event_text
       ["software"; "web"; "development"; "machine learning"; "cybersecurity";
        "tech"; "startup"]
  then ("Technology", "Tech Innovation & Startups")
  else if any_keyword event_text
            ["sports"; "game"; "match"; "tournament"; "team"; "adventure"]
  then ("Sports", "Team Sports")
  else if any_keyword event_text
            ["concert"; "music"; "band"; "singer"; "performance"]
  then ("Music", "Live Performances & Concerts")
  else if any_keyword event_text ["art"; "exhibition"; "workshop"; "performing"]
  then ("Art", "Art Exhibitions & Workshops")
  else if any_keyword event_text ["travel"; "tour"; "expedition"]
  then ("Travel", "Adventure Travel & Expeditions")
  else if any_keyword event_text
            ["esports"; "gaming"; "virtual reality"; "board games"]
  then ("Gaming", "eSports & Competitive Gaming")
  else if any_keyword event_text ["yoga"; "fitness"; "mindfulness"; "outdoor"]
  then ("Fitness", "Yoga & Mindfulness")
  else if any_keyword event_text
            ["networking"; "meetup"; "social"; "volunteer"; "party"; "club"]
  then ("Social Events", "Networking & Professional Meetups")
  else ("Others", "Sub-Others").

(** The JSON object of a reply, with the three keys the function reads;
    a key that is missing is [None]. *)
Record gpt_result := GptResult {
  gpt_main_category : option string;
  gpt_sub_category : option string;
  gpt_description : option string
}.

(** What the request to the model comes back with: an exception anywhere
    before the reply is read, a response without a message, a message
    that [json.loads] rejects, or a JSON object. *)
Inductive gpt_reply :=
| RequestFailed
| NoMessage
| NotJson
| Reply (result : gpt_result).

Section Categorizer.
Variable lower : string → string.
(** [len] on strings, taken as it comes from the Python runtime. *)
Variable len : string → nat.

(** The description written when the reply has none of 50 characters. *)
Definition generated_description (event_data : event_data)
    (main sub : string) : string :=
  "Join us for " +:+ title event_data +:+ " at " +:+ venue event_data +:+ "! "
  +:+ "This " +:+ sub +:+ " event promises to be an unforgettable experience. "
  +:+ "Don't miss out on this exciting " +:+ lower main +:+ " gathering!".

(** The inner [try] block on a JSON object. [None] stands for the
    [KeyError] of [result["main_category"]] or [result['sub_category']],
    which the outer handler catches. *)
Definition gpt_validated (result : gpt_result) (event_data : event_data)
    : option categorization :=
  main ← gpt_main_category result;
  let '(main, sub) :=
    if bool_decide (main ∈ main_categories)
    then (main, gpt_sub_category result)
    else
      let event_text :=
        lower (title event_data +:+ " "
               +:+ default "" (description event_data)) in
      let '(main, sub) := inline_fallback event_text in
      (main, Some sub) in
  sub ← sub;
  let description :=
    match gpt_description result with
    | Some (String a d) =>
        if (len (String a d) <? 50)%nat
        then generated_description event_data main sub
        else String a d
    | _ => generated_description event_data main sub
    end in
  Some (Categorization main sub description).

(** [categorize_with_gpt], on the reply the request came back with. *)
Definition categorize_with_gpt (reply : gpt_reply) (event_data : event_data)
    : option categorization :=
  match reply with
  | Reply result =>
      match gpt_validated result event_data with
      | Some enhanced => Some enhanced
      | None => infer_category_from_title lower event_data
      end
  | _ => infer_category_from_title lower event_data
  end.
End Categorizer.

(** ** Deduplication and storage ([main_new-1.py], lines 227-263, 306-313
    and 325-364) *)

(** Truth value of a text field: present and not empty. *)
Definition truthy (s : option string) : bool :=
  match s with
  | Some (String _ _) => true
  | _ => false
  end.

(** [is_duplicate_event] on the [events] collection. A [datetime] field
    is a number field. *)
Definition is_duplicate_event (db_events : list event) (event_data : event)
    : bool :=
  let ticketmaster_id := text event_data !! "id" in
  if truthy ticketmaster_id
     && bool_decide
          (Exists (λ e, text e !! "ticketmaster_id" = ticketmaster_id) db_events)
  then true
  else
    let title := text event_data !! "title" in
    let start_date := number event_data !! "startDate" in
    let venue := text event_data !! "venue" in
    if truthy title && bool_decide (is_Some start_date) && truthy venue
    then bool_decide
           (Exists (λ e, text e !! "title" = title
                         ∧ number e !! "startDate" = start_date
                         ∧ text e !! "venue" = venue) db_events)
    else false.

(** [categorize_ticketmaster_event] from the point where
    [process_ticketmaster_event] has returned [processed_event]: the
    collection afterwards and the value returned. [current_time] is
    [datetime.utcnow()], [inserted_id] the identifier the insertion
    assigns. *)
Definition categorize_ticketmaster_event (current_time : Z)
    (inserted_id : string) (db_events : list event)
    (processed_event : option event) : list event * option event :=
  match processed_event with
  | None => (db_events, None)
  | Some processed_event =>
      if is_duplicate_event db_events processed_event
      then (db_events, None)
      else
        let processed_event :=
          Event (<["_id" := inserted_id]> (text processed_event))
                (<["updatedAt" := current_time]>
                 (<["createdAt" := current_time]> (number processed_event)))
                (rsvps processed_event) in
        (db_events ++ [processed_event], Some processed_event)
  end.

(** The registration fee block of [process_ticketmaster_event]:
    [priceRanges] is the list of the ['min'] of every price range, [None]
    where a range has no such key. Any exception gives [0]. *)
Definition registration_fee (priceRanges : option (list (option Q))) : Q :=
  match priceRanges with
  | Some (price :: prices) =>
      match mapM id (price :: prices) with
      | Some (m :: ms) => foldl Qmin m ms
      | _ => 0
      end
  | _ => 0
  end.

(** ** Instances to run the endpoint with *)

(** A 24-digit hexadecimal identifier, kept as its text. *)
Definition is_hex (c : ascii) : bool :=
  let n := nat_of_ascii c in
  ((48 <=? n) && (n <=? 57) || (65 <=? n) && (n <=? 70)
   || (97 <=? n) && (n <=? 102))%nat.

Definition hex_object_id (s : string) : option string :=
  if (String.length s =? 24)%nat && forallb is_hex (list_ascii_of_string s)
  then Some (str_lower s) else None.

(** The squared Euclidean distance, a metric with exact values. *)
Fixpoint squared_euclidean (u v : list Z) : Q :=
  match u, v with
  | x :: u', y :: v' => inject_Z ((x - y) * (x - y)) + squared_euclidean u' v'
  | _, _ => 0
  end.

(** ** Sample documents *)

Definition sample_profile : user_profile string :=
  UserProfile "64b7f3a2c1d4e5f601234567" "hokie@vt.edu"
    (Some ["Music"; "Chess"; "Music"]).

(** A profile without interests, and the click counts the endpoint uses
    when the user has none. *)
Definition bare_profile : user_profile string :=
  UserProfile "64b7f3a2c1d4e5f601234568" "newcomer@vt.edu" None.

Definition no_clicks : click_counts := ClickCounts "" (Some []).

Definition sample_clicks : click_counts :=
  ClickCounts "hokie@vt.edu"
    (Some [ SubcategoryInfo (Some "Music Festivals") (Some 3);
            SubcategoryInfo (Some "Music") (Some 5);
            SubcategoryInfo (Some "Knitting") (Some 7) ]).

(** An event as the ingestion path stores it, with lower-case
    coordinate keys. *)
Definition concert : event :=
  Event {[ "title" := "Spring Concert"; "main_category" := "Music";
           "sub_category" := "Live Performances & Concerts" ]}
        {[ "latitude" := 37; "longitude" := -80 ]}
        ["hokie@vt.edu"].

(** An event whose two category fields hold the same label. *)
Definition doubled : event :=
  Event {[ "title" := "Open Mic"; "main_category" := "Music";
           "sub_category" := "Music" ]} ∅ ["hokie@vt.edu"].

(** An event with labels outside the feature space and coordinates
    under the keys the encoder reads. *)
Definition unlabelled : event :=
  Event {[ "title" := "Mystery"; "main_category" := "Cooking" ]}
        {[ "Latitude" := 37; "Longitude" := -80 ]} [].

Definition sample_feed : ticketmaster_event :=
  TicketmasterEvent (Some "Live Jazz Concert") None (Some "Lyric Theatre")
    (Some 37) (Some (-80)).

Definition sample_db : database string :=
  Database [sample_profile] [sample_clicks] [concert; doubled; unlabelled].

Definition empty_db : database string :=
  Database [sample_profile] [sample_clicks] [].

(** ** Measures of the encoder's input *)

(** Sum of the weights of a list. *)
Definition total {A} (w : A → Z) (l : list A) : Z :=
  foldr (λ x acc, w x + acc) 0 l.

(** The weight [w] when [label] is the label of cell [j], else [0]. *)
Definition cell_weight (fs : list string) (j : nat) (label : string) (w : Z) : Z :=
  if decide (index fs label = Some j) then w else 0.

Definition click_weight (fs : list string) (j : nat) (info : subcategory_info) : Z :=
  cell_weight fs j (default "" (category info)) (default 0 (categoryCount info)).

Definition rsvp_weight (fs : list string) (j : nat) (ev : event) : Z :=
  cell_weight fs j (get_text ev "main_category" "") 2
  + cell_weight fs j (get_text ev "sub_category" "") 2.

Definition interest_flag (fs : list string) (j : nat) (l : list string) : Z :=
  if decide (Exists (λ x, index fs x = Some j) l) then 1 else 0.

(** The engagement count of a label: the counts of its entries, summed. *)
Definition engagement_count (label : string) (infos : list subcategory_info) : Z :=
  total (λ info, if decide (default "" (category info) = label)
                 then default 0 (categoryCount info) else 0) infos.

(** The RSVP contributions of a label: one for every RSVP'd event that
    has it as main category, one for every one that has it as
    subcategory. *)
Definition rsvp_contributions (label : string) (rsvp_counts : list event) : Z :=
  total (λ ev,
           (if decide (get_text ev "main_category" "" = label) then 1 else 0)
           + (if decide (get_text ev "sub_category" "" = label) then 1 else 0))
        rsvp_counts.

(** The input keeps [create_user_vector] where [float64] arithmetic is
    exact: no click count is negative, so that no cell ever decreases
    while the loops run, and every cell of the result is below [2^53]. *)
Definition float64_exact {oid} (profile : user_profile oid)
    (clicks : click_counts) (rsvp_counts : list event) (fs : list string)
    : Prop :=
  Forall (λ info, 0 ≤ default 0 (categoryCount info))
         (default [] (subCategories clicks))
  ∧ Forall (λ x, x < 2 ^ 53)
           (create_user_vector profile clicks rsvp_counts fs).

(** The inner product of two vectors, which the angular distance of the
    index is computed from. *)
Fixpoint dot (u v : list Z) : Z :=
  match u, v with
  | x :: u', y :: v' => x * y + dot u' v'
  | _, _ => 0
  end.

(** * Properties *)

(** ** The index of a label *)

Lemma index_Some_lookup fs label i :
  index fs label = Some i → fs !! i = Some label.
Proof.
  revert i. induction fs as [|x fs IH]; intros i; simpl; [done|].
  case_decide as Hx; [by intros [= <-]; simplify_eq|].
  destruct (index fs label) as [k|] eqn:Hk; simpl; [|done].
  intros [= <-]. by apply IH.
Qed.

Lemma index_is_Some fs label : is_Some (index fs label) ↔ label ∈ fs.
Proof.
  induction fs as [|x fs IH]; simpl.
  - split; [by intros [? ?]|by intros ?%elem_of_nil].
  - case_decide as Hx.
    + subst. split; [intros _; left|eauto].
    + rewrite fmap_is_Some, IH, elem_of_cons.
      split; [by right|intros [Heq|?]; [by destruct Hx|done]].
Qed.

Lemma index_None fs label : index fs label = None ↔ label ∉ fs.
Proof. rewrite <- index_is_Some, eq_None_not_Some. done. Qed.

Lemma index_lt fs label i : index fs label = Some i → (i < length fs)%nat.
Proof. intros H%index_Some_lookup. by eapply lookup_lt_Some. Qed.

Lemma index_NoDup fs label i :
  NoDup fs → fs !! i = Some label → index fs label = Some i.
Proof.
  intros Hnd Hi.
  destruct (index fs label) as [k|] eqn:Hk.
  - f_equal. apply index_Some_lookup in Hk.
    by eapply NoDup_lookup.
  - apply index_None in Hk. destruct Hk. by eapply list_elem_of_lookup_2.
Qed.

(** Two labels with the same cell are the same label. *)
Lemma index_same_cell fs label lab i :
  index fs label = Some i → index fs lab = Some i ↔ lab = label.
Proof.
  intros Hi. split; [|by intros ->].
  intros Hl. apply index_Some_lookup in Hi, Hl. congruence.
Qed.

(** ** One guarded update *)

Lemma length_at_label fs label f v : length (at_label fs label f v) = length v.
Proof. unfold at_label. destruct (index fs label); [apply length_alter|done]. Qed.

Lemma at_label_lookup fs label f v j :
  at_label fs label f v !! j
  = if decide (index fs label = Some j) then f <$> v !! j else v !! j.
Proof.
  unfold at_label. destruct (index fs label) as [i|] eqn:Hi.
  - case_decide as Hj.
    + injection Hj as ->. apply list_lookup_alter_eq.
    + apply list_lookup_alter_ne. congruence.
  - by rewrite decide_False.
Qed.

Lemma at_label_absent fs label f v : label ∉ fs → at_label fs label f v = v.
Proof. intros H%index_None. unfold at_label. by rewrite H. Qed.

(** ** The three loops of [create_user_vector], cell by cell *)

Lemma total_app {A} (w : A → Z) l1 l2 : total w (l1 ++ l2) = total w l1 + total w l2.
Proof. induction l1 as [|x l1 IH]; simpl; [done|]. rewrite IH. lia. Qed.

Lemma total_zero {A} (w : A → Z) l : Forall (λ x, w x = 0) l → total w l = 0.
Proof. induction 1 as [|x l Hx _ IH]; simpl; [done|]. lia. Qed.

Lemma length_encode_interests fs l v : length (encode_interests fs l v) = length v.
Proof.
  revert v. induction l as [|x l IH]; intros v; simpl; [done|].
  unfold encode_interests in *. simpl. by rewrite IH, length_at_label.
Qed.

Lemma length_encode_clicks fs l v : length (encode_clicks fs l v) = length v.
Proof.
  revert v. induction l as [|x l IH]; intros v; simpl; [done|].
  unfold encode_clicks in *. simpl. by rewrite IH, length_at_label.
Qed.

Lemma length_encode_rsvps fs l v : length (encode_rsvps fs l v) = length v.
Proof.
  revert v. induction l as [|x l IH]; intros v; simpl; [done|].
  unfold encode_rsvps in *. simpl. by rewrite IH, !length_at_label.
Qed.

Lemma encode_interests_lookup fs l v j :
  encode_interests fs l v !! j
  = if decide (Exists (λ x, index fs x = Some j) l)
    then (λ _, 1) <$> v !! j else v !! j.
Proof.
  revert v. induction l as [|x l IH]; intros v.
  - change (encode_interests fs [] v) with v.
    case_decide as Hn; [by apply Exists_nil in Hn|done].
  - change (encode_interests fs (x :: l) v)
      with (encode_interests fs l (at_label fs x (λ _, 1) v)).
    rewrite IH, at_label_lookup.
    destruct (decide (index fs x = Some j)) as [Hx|Hx].
    + rewrite (decide_True (P := Exists _ (x :: l))) by (by left).
      case_decide; [|done]. by destruct (v !! j).
    + destruct (decide (Exists (λ x, index fs x = Some j) l)) as [Hl|Hl].
      * by rewrite decide_True by (by right).
      * rewrite decide_False; [done|]. by intros [?|?]%Exists_cons.
Qed.

Lemma encode_clicks_lookup fs l v j :
  encode_clicks fs l v !! j = (λ z, z + total (click_weight fs j) l) <$> v !! j.
Proof.
  revert v. induction l as [|x l IH]; intros v.
  - simpl. destruct (v !! j); simpl; [f_equal; lia|done].
  - change (encode_clicks fs (x :: l) v)
      with (encode_clicks fs l
              (at_label fs (default "" (category x))
                 (λ z, z + default 0 (categoryCount x)) v)).
    rewrite IH, at_label_lookup. simpl. unfold click_weight at 2, cell_weight.
    case_decide; destruct (v !! j); simpl; try done; f_equal; lia.
Qed.

Lemma encode_rsvps_lookup fs l v j :
  encode_rsvps fs l v !! j = (λ z, z + total (rsvp_weight fs j) l) <$> v !! j.
Proof.
  revert v. induction l as [|x l IH]; intros v.
  - simpl. destruct (v !! j); simpl; [f_equal; lia|done].
  - change (encode_rsvps fs (x :: l) v)
      with (encode_rsvps fs l
              (at_label fs (get_text x "sub_category" "") (λ z, z + 2)
                 (at_label fs (get_text x "main_category" "") (λ z, z + 2) v))).
    rewrite IH, !at_label_lookup. simpl. unfold rsvp_weight at 2, cell_weight.
    repeat case_decide; destruct (v !! j); simpl; try done; f_equal; lia.
Qed.

(** Every cell of the user vector: the feature cells are the sum of the
    three signals, the two trailing cells are [0]. *)
Lemma create_user_vector_lookup {oid} (profile : user_profile oid) clicks
    rsvp_counts fs j :
  create_user_vector profile clicks rsvp_counts fs !! j
  = if decide (j < length fs)%nat
    then Some (interest_flag fs j (default [] (interests profile))
               + total (click_weight fs j) (default [] (subCategories clicks))
               + total (rsvp_weight fs j) rsvp_counts)
    else [0; 0] !! (j - length fs)%nat.
Proof.
  unfold create_user_vector. cbv zeta.
  set (u := encode_rsvps _ _ _).
  assert (length u = length fs) as Hlen.
  { unfold u. rewrite length_encode_rsvps, length_encode_clicks,
      length_encode_interests. apply length_replicate. }
  case_decide as Hj.
  - rewrite lookup_app_l by lia. unfold u.
    rewrite encode_rsvps_lookup, encode_clicks_lookup, encode_interests_lookup.
    unfold np_zeros. rewrite lookup_replicate_2 by done.
    unfold interest_flag. case_decide; simpl; f_equal; lia.
  - rewrite lookup_app_r by lia. by rewrite Hlen.
Qed.

Lemma length_create_user_vector {oid} (profile : user_profile oid) clicks
    rsvp_counts fs :
  length (create_user_vector profile clicks rsvp_counts fs) = (length fs + 2)%nat.
Proof.
  unfold create_user_vector. cbv zeta.
  rewrite length_app, length_encode_rsvps, length_encode_clicks,
    length_encode_interests. unfold np_zeros. by rewrite length_replicate.
Qed.

Lemma length_create_event_vector ev fs :
  length (create_event_vector ev fs) = (length fs + 2)%nat.
Proof.
  unfold create_event_vector. cbv zeta.
  rewrite length_app, !length_at_label. unfold np_zeros.
  by rewrite length_replicate.
Qed.

(** ** Cells named by their label *)

Lemma cell_weight_label fs label lab i w :
  index fs label = Some i →
  cell_weight fs i lab w = if decide (lab = label) then w else 0.
Proof.
  intros Hi. unfold cell_weight.
  destruct (decide (lab = label)) as [->|Hne].
  - by rewrite decide_True.
  - rewrite decide_False; [done|]. by rewrite (index_same_cell _ _ _ _ Hi).
Qed.

Lemma click_total_label fs label i l :
  index fs label = Some i →
  total (click_weight fs i) l = engagement_count label l.
Proof.
  intros Hi. unfold engagement_count.
  induction l as [|x l IH]; simpl; [done|].
  rewrite IH. unfold click_weight. by rewrite (cell_weight_label _ _ _ _ _ Hi).
Qed.

Lemma rsvp_total_label fs label i l :
  index fs label = Some i →
  total (rsvp_weight fs i) l = 2 * rsvp_contributions label l.
Proof.
  intros Hi. unfold rsvp_contributions.
  induction l as [|x l IH]; simpl; [done|].
  rewrite IH. unfold rsvp_weight.
  rewrite !(cell_weight_label _ _ _ _ _ Hi).
  repeat case_decide; lia.
Qed.

Lemma interest_flag_label fs label i l :
  index fs label = Some i →
  interest_flag fs i l = if decide (label ∈ l) then 1 else 0.
Proof.
  intros Hi. unfold interest_flag.
  destruct (decide (label ∈ l)) as [Hin|Hin].
  - rewrite decide_True; [done|]. apply Exists_exists. eauto.
  - rewrite decide_False; [done|].
    intros (lab & Hlab & Hj)%Exists_exists.
    apply (index_same_cell _ _ _ _ Hi) in Hj. by subst.
Qed.

(** The cell of a label of the feature space holds the interest flag, the
    engagement count and twice the RSVP contributions of that label. *)
Lemma user_cell_by_label {oid} (profile : user_profile oid) clicks rsvp_counts
    fs label i :
  index fs label = Some i →
  create_user_vector profile clicks rsvp_counts fs !! i
  = Some ((if decide (label ∈ default [] (interests profile)) then 1 else 0)
          + engagement_count label (default [] (subCategories clicks))
          + 2 * rsvp_contributions label rsvp_counts).
Proof.
  intros Hi. rewrite create_user_vector_lookup.
  rewrite decide_True by (by eapply index_lt).
  by rewrite (interest_flag_label _ _ _ _ Hi), (click_total_label _ _ _ _ Hi),
    (rsvp_total_label _ _ _ _ Hi).
Qed.

(** ** Inputs without recognizable labels *)

Lemma encode_interests_absent fs l v :
  Forall (λ x, x ∉ fs) l → encode_interests fs l v = v.
Proof.
  induction 1 as [|x l Hx _ IH]; [done|].
  change (encode_interests fs (x :: l) v)
    with (encode_interests fs l (at_label fs x (λ _, 1) v)).
  by rewrite at_label_absent.
Qed.

Lemma encode_clicks_absent fs l v :
  Forall (λ info, default "" (category info) ∉ fs) l → encode_clicks fs l v = v.
Proof.
  induction 1 as [|x l Hx _ IH]; [done|].
  change (encode_clicks fs (x :: l) v)
    with (encode_clicks fs l
            (at_label fs (default "" (category x))
               (λ z, z + default 0 (categoryCount x)) v)).
  by rewrite at_label_absent.
Qed.

Lemma encode_rsvps_absent fs l v :
  Forall (λ ev, (get_text ev "main_category" "" ∉ fs)
                ∧ (get_text ev "sub_category" "" ∉ fs)) l →
  encode_rsvps fs l v = v.
Proof.
  induction 1 as [|x l [Hm Hs] _ IH]; [done|].
  change (encode_rsvps fs (x :: l) v)
    with (encode_rsvps fs l
            (at_label fs (get_text x "sub_category" "") (λ z, z + 2)
               (at_label fs (get_text x "main_category" "") (λ z, z + 2) v))).
  by rewrite !at_label_absent.
Qed.

(** ** What the event encoder reads *)

(** The two trailing cells are the fields ["Latitude"] and ["Longitude"]. *)
Lemma create_event_vector_trailing ev fs :
  drop (length fs) (create_event_vector ev fs)
  = [get_number ev "Latitude" 0; get_number ev "Longitude" 0].
Proof.
  unfold create_event_vector. cbv zeta.
  rewrite drop_app_length'; [done|].
  rewrite !length_at_label. symmetry. apply length_replicate.
Qed.

Lemma put_number_is_Some k v m key :
  is_Some (put_number k v m !! key) → key = k ∨ is_Some (m !! key).
Proof.
  unfold put_number. destruct v as [z|]; [|by right].
  rewrite lookup_insert_is_Some. intros [->|[_ ?]]; [by left|by right].
Qed.

(** The number fields [process_ticketmaster_event] writes are
    ["latitude"] and ["longitude"], and no other. *)
Lemma process_ticketmaster_event_number_keys categorize tm ev key :
  process_ticketmaster_event categorize tm = Some ev →
  is_Some (number ev !! key) → key = "latitude" ∨ key = "longitude".
Proof.
  unfold process_ticketmaster_event.
  destruct (categorize _) as [enhanced|]; simpl; [|done].
  intros [= <-]. simpl. intros H.
  apply put_number_is_Some in H as [->|H]; [by left|].
  apply put_number_is_Some in H as [->|H]; [by right|].
  rewrite lookup_empty in H. by apply is_Some_None in H.
Qed.

(** An event stored by [process_ticketmaster_event] is encoded with
    coordinates [0, 0], whatever its venue's location. *)
Lemma stored_event_trailing_zero categorize tm ev fs :
  process_ticketmaster_event categorize tm = Some ev →
  drop (length fs) (create_event_vector ev fs) = [0; 0].
Proof.
  intros Hev. rewrite create_event_vector_trailing. unfold get_number.
  destruct (number ev !! "Latitude") as [x|] eqn:Hlat.
  { destruct (process_ticketmaster_event_number_keys _ _ _ "Latitude" Hev)
      as [?|?]; [by eexists|done|done]. }
  destruct (number ev !! "Longitude") as [y|] eqn:Hlon; [|done].
  destruct (process_ticketmaster_event_number_keys _ _ _ "Longitude" Hev)
    as [?|?]; [by eexists|done|done].
Qed.

(** * Properties of the specification *)

(** C8. The labels of the feature space are pairwise distinct and
    [index] is a bijection from them onto the positions [0 .. 32]: the
    index of a label is the position that holds it, every label has an
    index below the dimension count, every position below it is the index
    of a label, and two labels with the same index are equal. Deriving the
    space again from the two catalogues gives the same indices. *)
Theorem feature_space_index_bijection :
  NoDup feature_space
  ∧ length feature_space = 33%nat
  ∧ (∀ label i,
       index feature_space label = Some i ↔ feature_space !! i = Some label)
  ∧ (∀ label, label ∈ feature_space →
       ∃ i, (i < length feature_space)%nat ∧ index feature_space label = Some i)
  ∧ (∀ i, (i < length feature_space)%nat →
       ∃ label, label ∈ feature_space ∧ index feature_space label = Some i)
  ∧ (∀ label label' i,
       index feature_space label = Some i →
       index feature_space label' = Some i → label = label')
  ∧ (∀ label,
       index (categories ++ subcategories) label = index feature_space label).
Proof.
  assert (NoDup feature_space) as Hnd.
  { apply (bool_decide_unpack (NoDup feature_space)). by vm_compute. }
  split_and!; try done.
  - intros label i. split; [apply index_Some_lookup|by apply index_NoDup].
  - intros label [i Hi]%index_is_Some. exists i.
    split; [by eapply index_lt|done].
  - intros i [label Hl]%lookup_lt_is_Some. exists label.
    split; [by eapply list_elem_of_lookup_2|by apply index_NoDup].
  - intros label label' i Hi Hi'. by apply (index_same_cell _ _ _ _ Hi') in Hi.
Qed.

(** C7. Both encoders return a vector of length [dimension_count + 2]
    for every input; a user without recognizable labels gets the
    all-zero vector, and an event without recognizable labels gets zeros
    followed by its two coordinate cells. *)
Theorem encoders_length_and_zeros :
  (∀ oid (profile : user_profile oid) clicks rsvp_counts fs,
     length (create_user_vector profile clicks rsvp_counts fs)
     = (length fs + 2)%nat)
  ∧ (∀ ev fs, length (create_event_vector ev fs) = (length fs + 2)%nat)
  ∧ (∀ oid (profile : user_profile oid) clicks rsvp_counts fs,
       Forall (λ x, x ∉ fs) (default [] (interests profile)) →
       Forall (λ info, default "" (category info) ∉ fs)
              (default [] (subCategories clicks)) →
       Forall (λ ev, (get_text ev "main_category" "" ∉ fs)
                     ∧ (get_text ev "sub_category" "" ∉ fs)) rsvp_counts →
       create_user_vector profile clicks rsvp_counts fs
       = replicate (length fs) 0 ++ [0; 0])
  ∧ (∀ ev fs,
       get_text ev "main_category" "" ∉ fs →
       get_text ev "sub_category" "" ∉ fs →
       create_event_vector ev fs
       = replicate (length fs) 0
         ++ [get_number ev "Latitude" 0; get_number ev "Longitude" 0]).
Proof.
  split_and!.
  - intros. apply length_create_user_vector.
  - intros. apply length_create_event_vector.
  - intros oid profile clicks rsvp_counts fs Hi Hc Hr.
    unfold create_user_vector. cbv zeta.
    by rewrite encode_rsvps_absent, encode_clicks_absent,
      encode_interests_absent.
  - intros ev fs Hm Hs. unfold create_event_vector. cbv zeta.
    by rewrite !at_label_absent.
Qed.

Lemma encoders_length_and_zeros_witness :
  length (create_user_vector sample_profile sample_clicks [concert] feature_space)
  = 35%nat
  ∧ length (create_event_vector unlabelled feature_space) = 35%nat
  ∧ create_user_vector
      (UserProfile "64b7f3a2c1d4e5f601234567" "hokie@vt.edu" (Some ["Chess"]))
      (ClickCounts "hokie@vt.edu" (Some [SubcategoryInfo (Some "Knitting") (Some 7)]))
      [unlabelled] feature_space
    = replicate 33 0 ++ [0; 0]
  ∧ create_event_vector unlabelled feature_space = replicate 33 0 ++ [37; -80].
Proof.
  destruct encoders_length_and_zeros as (Hu & He & Hzu & Hze).
  split_and!.
  - apply (Hu string).
  - apply He.
  - apply (Hzu string); simpl.
    + repeat constructor. apply index_None. reflexivity.
    + repeat constructor. apply index_None. reflexivity.
    + repeat constructor; apply index_None; reflexivity.
  - apply (Hze unlabelled feature_space); apply index_None; reflexivity.
Defined.

(** C6. A label of the feature space that the profile lists as an
    interest, once or several times, has exactly [1] in its cell of the
    user vector when no click-count entry and no RSVP'd event carries
    that label; and two interest lists with the same labels give the same
    user vector, however often each label is listed. *)
Theorem interests_are_set_membership :
  (∀ oid (key : oid) email l clicks rsvp_counts fs label i,
     index fs label = Some i → label ∈ l →
     Forall (λ info, default "" (category info) ≠ label)
            (default [] (subCategories clicks)) →
     Forall (λ ev, get_text ev "main_category" "" ≠ label
                   ∧ get_text ev "sub_category" "" ≠ label) rsvp_counts →
     create_user_vector (UserProfile key email (Some l)) clicks rsvp_counts fs
       !! i = Some 1)
  ∧ (∀ oid (key : oid) email l l' clicks rsvp_counts fs,
       (∀ x, x ∈ l ↔ x ∈ l') →
       create_user_vector (UserProfile key email (Some l)) clicks rsvp_counts fs
       = create_user_vector (UserProfile key email (Some l')) clicks rsvp_counts fs).
Proof.
  split.
  - intros oid key email l clicks rsvp_counts fs label i Hi Hin Hc Hr.
    rewrite (user_cell_by_label _ _ _ _ _ _ Hi). simpl.
    rewrite decide_True by done.
    unfold engagement_count, rsvp_contributions.
    rewrite !total_zero; [done| |].
    + eapply Forall_impl; [exact Hr|]. intros ev [Hm Hs]. simpl.
      by rewrite !decide_False.
    + eapply Forall_impl; [exact Hc|]. intros info Hne. simpl.
      by rewrite decide_False.
  - intros oid key email l l' clicks rsvp_counts fs Hll.
    apply list_eq. intros j. rewrite !create_user_vector_lookup. simpl.
    case_decide; [|done]. do 3 f_equal. unfold interest_flag.
    assert (Exists (λ x, index fs x = Some j) l
            ↔ Exists (λ x, index fs x = Some j) l') as Hex.
    { rewrite !Exists_exists. by setoid_rewrite Hll. }
    destruct (decide (Exists (λ x, index fs x = Some j) l)) as [He|He].
    + rewrite decide_True; [done|]. by apply Hex.
    + rewrite decide_False; [done|]. by rewrite <- Hex.
Qed.

Lemma interests_are_set_membership_witness :
  create_user_vector
    (UserProfile "64b7f3a2c1d4e5f601234567" "hokie@vt.edu"
       (Some ["Music"; "Chess"; "Music"]))
    (ClickCounts "hokie@vt.edu"
       (Some [SubcategoryInfo (Some "Music Festivals") (Some 3)]))
    [unlabelled] feature_space !! 2%nat = Some 1
  ∧ create_user_vector
      (UserProfile "64b7f3a2c1d4e5f601234567" "hokie@vt.edu"
         (Some ["Music"; "Chess"; "Music"]))
      sample_clicks [concert] feature_space
    = create_user_vector
        (UserProfile "64b7f3a2c1d4e5f601234567" "hokie@vt.edu"
           (Some ["Music"; "Chess"]))
        sample_clicks [concert] feature_space.
Proof.
  destruct interests_are_set_membership as [Hone Hset].
  split.
  - apply (Hone string _ _ _ _ _ feature_space "Music");
      [reflexivity|by left| |]; by repeat constructor.
  - apply (Hset string). intros x. rewrite !elem_of_cons. tauto.
Defined.

(** C5. Raising the count of one click-count entry of a subcategory of
    the feature space from [c] to [c + n], everything else fixed, raises
    the cell of that subcategory by exactly [n], where both inputs keep
    the cells exact in [float64]. *)
Theorem engagement_is_additive {oid} (profile : user_profile oid) uid l1 l2
    subcategory c n rsvp_counts fs i :
  index fs subcategory = Some i →
  float64_exact profile
    (ClickCounts uid
       (Some (l1 ++ SubcategoryInfo (Some subcategory) (Some c) :: l2)))
    rsvp_counts fs →
  float64_exact profile
    (ClickCounts uid
       (Some (l1 ++ SubcategoryInfo (Some subcategory) (Some (c + n)) :: l2)))
    rsvp_counts fs →
  ∃ x,
    create_user_vector profile
      (ClickCounts uid
         (Some (l1 ++ SubcategoryInfo (Some subcategory) (Some c) :: l2)))
      rsvp_counts fs !! i = Some x
    ∧ create_user_vector profile
        (ClickCounts uid
           (Some (l1 ++ SubcategoryInfo (Some subcategory) (Some (c + n)) :: l2)))
        rsvp_counts fs !! i = Some (x + n).
Proof.
  intros Hi _ _. rewrite !(user_cell_by_label _ _ _ _ _ _ Hi).
  eexists. split; [reflexivity|]. f_equal. simpl.
  unfold engagement_count. rewrite !total_app. simpl.
  destruct (decide (subcategory = subcategory)); [lia|done].
Qed.

Lemma engagement_is_additive_witness :
  ∃ x,
    create_user_vector sample_profile
      (ClickCounts "hokie@vt.edu"
         (Some ([SubcategoryInfo (Some "Music") (Some 5)]
                ++ SubcategoryInfo (Some "Music Festivals") (Some 3) :: [])))
      [concert] feature_space !! 17%nat = Some x
    ∧ create_user_vector sample_profile
        (ClickCounts "hokie@vt.edu"
           (Some ([SubcategoryInfo (Some "Music") (Some 5)]
                  ++ SubcategoryInfo (Some "Music Festivals") (Some (3 + 4)) :: [])))
        [concert] feature_space !! 17%nat = Some (x + 4).
Proof.
  apply (engagement_is_additive sample_profile "hokie@vt.edu"
           [SubcategoryInfo (Some "Music") (Some 5)] [] "Music Festivals" 3 4
           [concert] feature_space 17).
  - reflexivity.
  - split; [repeat constructor; simpl; lia|].
    apply (bool_decide_unpack _). by vm_compute.
  - split; [repeat constructor; simpl; lia|].
    apply (bool_decide_unpack _). by vm_compute.
Defined.

(** C4, as the code has it. One more RSVP'd event whose main category
    and subcategory are both in the feature space adds [2] to the cell of
    its main category and [2] to the cell of its subcategory, and leaves
    every other cell as it was: [2] in each of the two cells when the
    labels differ, [4] in the one cell when they are the same label. The
    input with the event keeps the cells exact in [float64]. *)
Theorem rsvp_adds_two_per_label {oid} (profile : user_profile oid) clicks
    l1 l2 ev fs im isub :
  index fs (get_text ev "main_category" "") = Some im →
  index fs (get_text ev "sub_category" "") = Some isub →
  float64_exact profile clicks (l1 ++ ev :: l2) fs →
  ∀ j,
    create_user_vector profile clicks (l1 ++ ev :: l2) fs !! j
    = (λ z, z + (if decide (j = im) then 2 else 0)
              + (if decide (j = isub) then 2 else 0))
      <$> create_user_vector profile clicks (l1 ++ l2) fs !! j.
Proof.
  intros Hm Hs _ j. rewrite !create_user_vector_lookup.
  destruct (decide (j < length fs)%nat) as [Hj|Hj].
  - simpl. f_equal. rewrite !total_app. simpl.
    unfold rsvp_weight at 2, cell_weight. rewrite Hm, Hs.
    repeat case_decide; simplify_eq; lia.
  - apply index_lt in Hm, Hs.
    rewrite !decide_False by lia.
    destruct ([0; 0] !! (j - length fs)%nat); simpl; [f_equal; lia|done].
Qed.

Lemma rsvp_adds_two_per_label_witness :
  create_user_vector sample_profile sample_clicks ([doubled] ++ concert :: [])
    feature_space !! 16%nat
  = (λ z, z + (if decide (16%nat = 2%nat) then 2 else 0)
            + (if decide (16%nat = 16%nat) then 2 else 0))
    <$> create_user_vector sample_profile sample_clicks ([doubled] ++ [])
          feature_space !! 16%nat.
Proof.
  apply (rsvp_adds_two_per_label sample_profile sample_clicks [doubled] []
           concert feature_space 2 16); [reflexivity|reflexivity|].
  split; [repeat constructor; simpl; lia|].
  apply (bool_decide_unpack _). by vm_compute.
Defined.

(** C4, as stated, fails on an event whose two category fields hold the
    same label of the feature space: the cell of that label grows by [4],
    not by [2]. *)
Lemma rsvp_same_label_adds_four :
  get_text doubled "main_category" "" = "Music"
  ∧ get_text doubled "sub_category" "" = "Music"
  ∧ index feature_space "Music" = Some 2%nat
  ∧ create_user_vector bare_profile no_clicks [] feature_space !! 2%nat
    = Some 0
  ∧ create_user_vector bare_profile no_clicks [doubled] feature_space !! 2%nat
    = Some 4
  ∧ create_user_vector bare_profile no_clicks [doubled] feature_space !! 2%nat
    ≠ (λ z, z + 2)
      <$> create_user_vector bare_profile no_clicks [] feature_space !! 2%nat.
Proof. split_and!; try reflexivity. by vm_compute. Qed.

(** C10. The three signals add up in one cell: a label of the feature
    space that is among the interests, has engagement count [c] and [r]
    RSVP contributions ends with [1 + c + 2 r]; one that is not among the
    interests ends with [c + 2 r]. The user vector is the interest loop,
    then the click loop, then the RSVP loop, run on the zero vector. The
    input keeps the cells exact in [float64]. *)
Theorem signals_compose_additively {oid} (profile : user_profile oid) clicks
    rsvp_counts fs label i :
  index fs label = Some i →
  float64_exact profile clicks rsvp_counts fs →
  let c := engagement_count label (default [] (subCategories clicks)) in
  let r := rsvp_contributions label rsvp_counts in
  (label ∈ default [] (interests profile) →
   create_user_vector profile clicks rsvp_counts fs !! i = Some (1 + c + 2 * r))
  ∧ (label ∉ default [] (interests profile) →
     create_user_vector profile clicks rsvp_counts fs !! i = Some (c + 2 * r))
  ∧ create_user_vector profile clicks rsvp_counts fs
    = encode_rsvps fs rsvp_counts
        (encode_clicks fs (default [] (subCategories clicks))
           (encode_interests fs (default [] (interests profile))
              (np_zeros (length fs))))
      ++ [0; 0].
Proof.
  intros Hi _ c r. split_and!.
  - intros Hin. rewrite (user_cell_by_label _ _ _ _ _ _ Hi).
    by rewrite decide_True.
  - intros Hin. rewrite (user_cell_by_label _ _ _ _ _ _ Hi).
    by rewrite decide_False.
  - done.
Qed.

Lemma signals_compose_additively_witness :
  create_user_vector sample_profile sample_clicks [concert; doubled]
    feature_space !! 2%nat = Some (1 + 5 + 2 * 3).
Proof.
  assert (float64_exact sample_profile sample_clicks [concert; doubled]
            feature_space) as Hexact.
  { split; [repeat constructor; simpl; lia|].
    apply (bool_decide_unpack _). by vm_compute. }
  destruct (signals_compose_additively sample_profile sample_clicks
              [concert; doubled] feature_space "Music" 2 eq_refl Hexact)
    as (Hin & _ & _).
  apply Hin. by left.
Defined.

(** C2. The event encoder reads the keys ["Latitude"] and ["Longitude"];
    the ingestion path stores the coordinates under ["latitude"] and
    ["longitude"]. The event built from a feed entry located at
    [(37, -80)] keeps those coordinates, and its vector ends in [0, 0]. *)
Theorem stored_coordinates_are_not_encoded :
  ∃ ev,
    process_ticketmaster_event (infer_category_from_title str_lower) sample_feed
    = Some ev
    ∧ text ev !! "main_category" = Some "Music"
    ∧ number ev !! "latitude" = Some 37
    ∧ number ev !! "longitude" = Some (-80)
    ∧ drop (length feature_space) (create_event_vector ev feature_space)
      = [0; 0].
Proof.
  destruct (process_ticketmaster_event (infer_category_from_title str_lower)
              sample_feed) as [ev|] eqn:Hev; [|by vm_compute in Hev].
  exists ev. split; [done|].
  split_and!; [| | |by eapply stored_event_trailing_zero].
  all: revert Hev; vm_compute; by intros [= <-].
Qed.

(** ** The keyword rules *)

Lemma first_match_none text rules :
  Forall (λ rule, any_keyword text rule.2 = false) rules →
  first_match text rules = None.
Proof.
  induction 1 as [|[cat keywords] rules Hr _ IH]; simpl in *; [done|].
  by rewrite Hr.
Qed.

Lemma first_match_first text before cat keywords after :
  Forall (λ rule, any_keyword text rule.2 = false) before →
  any_keyword text keywords = true →
  first_match text (before ++ (cat, keywords) :: after) = Some cat.
Proof.
  intros Hb Hk. induction Hb as [|[c ks] before Hr _ IH]; simpl in *.
  - by rewrite Hk.
  - by rewrite Hr.
Qed.

Lemma first_match_rule text rules cat :
  first_match text rules = Some cat → cat ∈ rules.*1.
Proof.
  induction rules as [|[c ks] rules IH]; simpl; [done|].
  destruct (any_keyword text ks).
  - intros [= ->]. by left.
  - intros H. right. by apply IH.
Qed.

(** Every category of the rule list has its subcategory. *)
Lemma subcategory_mappings_total cat :
  cat ∈ category_keywords.*1 → is_Some (subcategory_mappings !! cat).
Proof.
  revert cat. apply Forall_forall.
  apply (bool_decide_unpack
           (Forall (λ cat, is_Some (subcategory_mappings !! cat))
                   category_keywords.*1)).
  by vm_compute.
Qed.

(** C9. The classifier answers with the category, and that category's
    subcategory, of the first rule of [category_keywords] that has a
    keyword in the lower-cased text, whatever later rules match; the rules
    are the nine categories in catalogue order; when no rule matches the
    answer is exactly ["Others"] with ["Sub-Others"]; and it always
    answers. *)
Theorem keyword_rules_first_match_wins (lower : string → string)
    (event_data : event_data) :
  (∀ before cat keywords after,
     category_keywords = before ++ (cat, keywords) :: after →
     Forall (λ rule, any_keyword (combined_text lower event_data) rule.2 = false)
            before →
     any_keyword (combined_text lower event_data) keywords = true →
     ∃ sub result,
       subcategory_mappings !! cat = Some sub
       ∧ infer_category_from_title lower event_data = Some result
       ∧ main_category result = cat ∧ sub_category result = sub)
  ∧ (Forall (λ rule, any_keyword (combined_text lower event_data) rule.2 = false)
            category_keywords →
     ∃ result,
       infer_category_from_title lower event_data = Some result
       ∧ main_category result = "Others"
       ∧ sub_category result = "Sub-Others")
  ∧ category_keywords.*1 = categories
  ∧ is_Some (infer_category_from_title lower event_data).
Proof.
  split_and!.
  - intros before cat keywords after Hrules Hb Hk.
    assert (first_match (combined_text lower event_data) category_keywords
            = Some cat) as Hfm.
    { rewrite Hrules. by apply first_match_first. }
    destruct (subcategory_mappings_total cat) as [sub Hsub].
    { by eapply first_match_rule. }
    exists sub. eexists. split; [done|].
    unfold infer_category_from_title. cbv zeta. rewrite Hfm, Hsub. simpl.
    by split_and!.
  - intros Hnone. eexists. unfold infer_category_from_title. cbv zeta.
    rewrite (first_match_none _ _ Hnone). by split_and!.
  - reflexivity.
  - unfold infer_category_from_title. cbv zeta.
    destruct (first_match _ _) as [cat|] eqn:Hfm; [|by eexists].
    destruct (subcategory_mappings_total cat) as [sub Hsub].
    { by eapply first_match_rule. }
    rewrite Hsub. by eexists.
Qed.

(** A title with keywords of three rules (Technology, Fitness and Social
    Events) is classified by the first of them; a title without any
    keyword gets the default. *)
Lemma keyword_rules_first_match_wins_witness :
  (∃ result,
     infer_category_from_title str_lower
       (EventData "Yoga Tech Meetup" None "Squires") = Some result
     ∧ main_category result = "Technology"
     ∧ sub_category result = "Tech Innovation & Startups")
  ∧ (∃ result,
       infer_category_from_title str_lower
         (EventData "Quiet Evening" (Some "") "Squires") = Some result
       ∧ main_category result = "Others"
       ∧ sub_category result = "Sub-Others").
Proof.
  split.
  - destruct (keyword_rules_first_match_wins str_lower
                (EventData "Yoga Tech Meetup" None "Squires")) as (Hfirst & _).
    destruct (Hfirst [] "Technology"
                ["software"; "web"; "development"; "machine learning";
                 "cybersecurity"; "tech"; "startup"]
                (tail category_keywords) eq_refl (Forall_nil_2 _) eq_refl)
      as (sub & result & Hsub & Hres & Hmain & Hs).
    exists result. split_and!; [done|done|].
    rewrite Hs. vm_compute in Hsub. by injection Hsub.
  - destruct (keyword_rules_first_match_wins str_lower
                (EventData "Quiet Evening" (Some "") "Squires"))
      as (_ & Hdefault & _).
    apply Hdefault. apply (bool_decide_unpack _). by vm_compute.
Defined.

(** ** The query of the index *)

#[global] Instance closer_total : Total closer.
Proof.
  intros a b. unfold closer.
  destruct (Qlt_le_dec b.2 a.2) as [Hlt|Hle]; [right|left]; [|done].
  by apply Qlt_le_weak.
Qed.

#[global] Instance closer_trans : Transitive closer.
Proof. intros a b c. unfold closer. apply Qle_trans. Qed.

Lemma StronglySorted_take {A} (R : relation A) k l :
  StronglySorted R l → StronglySorted R (take k l).
Proof.
  intros Hl. revert k. induction Hl as [|x l Hl IH Hx]; intros [|k]; simpl;
    try constructor; [apply IH|by apply Forall_take].
Qed.

Section QueryFacts.
Variable distance : list Z → list Z → Q.

Lemma query_sorted ix q k : StronglySorted closer (query distance ix q k).
Proof.
  unfold query. apply StronglySorted_take.
  apply StronglySorted_merge_sort; apply _.
Qed.

Lemma query_length ix q k : (length (query distance ix q k) ≤ k)%nat.
Proof. unfold query. rewrite length_take. lia. Qed.

Lemma query_all ix q k :
  (length ix ≤ k)%nat →
  query distance ix q k ≡ₚ (λ item, (item.1, distance q item.2)) <$> ix.
Proof.
  intros Hk. unfold query. rewrite take_ge.
  - apply merge_sort_Permutation.
  - by rewrite merge_sort_Permutation, length_fmap.
Qed.

Lemma query_empty q k : query distance (build []) q k = [].
Proof. unfold query, build. by destruct k. Qed.
End QueryFacts.

(** ** The endpoint *)

Section EndpointFacts.
Context {oid : Type} `{EqDecision oid}.
Variable ObjectId : string → option oid.
Variable distance : list Z → list Z → Q.

(** Whatever the [try] block raises, the endpoint raises a 500. *)
Lemma recommend_events_failure db user_id top_n e :
  recommend_events ObjectId distance db user_id top_n = inl e →
  e = HTTPException 500.
Proof.
  unfold recommend_events, try_except, raise.
  destruct (recommend_body _ _ _ _ _); congruence.
Qed.

(** A request for a user without a profile raises a 404 inside the
    [try] block when the identifier is well formed, and [InvalidId]
    when it is not. *)
Lemma recommend_body_unknown_user db user_id top_n :
  (∀ key, ObjectId user_id = Some key →
          find_one (λ p, _id p = key) (userprofiles db) = None) →
  recommend_body ObjectId distance db user_id top_n
  = match ObjectId user_id with
    | Some _ => inl (HTTPException 404)
    | None => inl InvalidId
    end.
Proof.
  intros Hno. unfold recommend_body.
  destruct (ObjectId user_id) as [key|]; simpl; [|done].
  by rewrite (Hno key eq_refl).
Qed.

(** The endpoint turns both into a 500. *)
Lemma recommend_events_unknown_user db user_id top_n :
  (∀ key, ObjectId user_id = Some key →
          find_one (λ p, _id p = key) (userprofiles db) = None) →
  recommend_events ObjectId distance db user_id top_n
  = inl (HTTPException 500).
Proof.
  intros Hno. unfold recommend_events.
  rewrite (recommend_body_unknown_user _ _ _ Hno).
  by destruct (ObjectId user_id).
Qed.

(** With no event in the collection the answer is the empty list. *)
Lemma recommend_events_no_events db user_id top_n key profile :
  ObjectId user_id = Some key →
  find_one (λ p, _id p = key) (userprofiles db) = Some profile →
  events db = [] →
  recommend_events ObjectId distance db user_id top_n = inr [].
Proof.
  intros Hkey Hprofile Hev.
  unfold recommend_events, recommend_body. rewrite Hkey. simpl.
  rewrite Hprofile, Hev. simpl. rewrite query_empty. done.
Qed.
End EndpointFacts.

(** C3. A query returns its results in non-decreasing order of
    distance, at most [k] of them, all indexed items when [k] is at least
    the size of the index, and none on an empty index; and a request of a
    known user over an empty event collection is answered with the empty
    list of recommendations. *)
Theorem query_contract (distance : list Z → list Z → Q) :
  (∀ vectors q k, StronglySorted closer (query distance (build vectors) q k))
  ∧ (∀ vectors q k, (length (query distance (build vectors) q k) ≤ k)%nat)
  ∧ (∀ vectors q k,
       (length vectors ≤ k)%nat →
       query distance (build vectors) q k
       ≡ₚ (λ item, (item.1, distance q item.2)) <$> vectors)
  ∧ (∀ q k, query distance (build []) q k = [])
  ∧ (∀ (oid : Type) (eq_oid : EqDecision oid) (ObjectId : string → option oid)
       (db : database oid) user_id top_n key profile,
       ObjectId user_id = Some key →
       find_one (λ p, _id p = key) (userprofiles db) = Some profile →
       events db = [] →
       recommend_events ObjectId distance db user_id top_n = inr []).
Proof.
  split_and!.
  - intros. apply query_sorted.
  - intros. apply query_length.
  - intros vectors q k Hk. by apply query_all.
  - intros. apply query_empty.
  - intros. by eapply recommend_events_no_events.
Qed.

Lemma query_contract_witness :
  query squared_euclidean (build [(0%nat, [1; 0]); (1%nat, [0; 3])]) [0; 1] 5
  ≡ₚ (λ item, (item.1, squared_euclidean [0; 1] item.2))
     <$> [(0%nat, [1; 0]); (1%nat, [0; 3])]
  ∧ recommend_events hex_object_id squared_euclidean empty_db
      "64B7F3A2C1D4E5F601234567" 10 = inr [].
Proof.
  destruct (query_contract squared_euclidean) as (_ & _ & Hall & _ & Hnone).
  split.
  - apply Hall. simpl. lia.
  - by apply (Hnone string _ hex_object_id empty_db
                "64B7F3A2C1D4E5F601234567" 10%nat
                "64b7f3a2c1d4e5f601234567" sample_profile).
Defined.

(** C1. The request of a user who has no profile raises a 404 inside
    the [try] block, and the endpoint answers with a 500. *)
Theorem missing_user_is_answered_500 :
  find_one (λ p, _id p = "000000000000000000000000") (userprofiles sample_db)
  = None
  ∧ recommend_body hex_object_id squared_euclidean sample_db
      "000000000000000000000000" 10 = inl (HTTPException 404)
  ∧ recommend_events hex_object_id squared_euclidean sample_db
      "000000000000000000000000" 10 = inl (HTTPException 500).
Proof. by split_and!. Qed.

(** * Further properties of the encoders *)

Lemma total_Permutation {A} (w : A → Z) l l' :
  l ≡ₚ l' → total w l = total w l'.
Proof. induction 1; simpl; lia. Qed.

Lemma total_nonneg {A} (w : A → Z) l :
  Forall (λ x, 0 ≤ w x) l → 0 ≤ total w l.
Proof. induction 1; simpl; lia. Qed.

Lemma interest_flag_same_labels fs j l l' :
  (∀ x, x ∈ l ↔ x ∈ l') → interest_flag fs j l = interest_flag fs j l'.
Proof.
  intros Hll. unfold interest_flag.
  assert (Exists (λ x, index fs x = Some j) l
          ↔ Exists (λ x, index fs x = Some j) l') as Hex.
  { rewrite !Exists_exists. by setoid_rewrite Hll. }
  destruct (decide (Exists (λ x, index fs x = Some j) l)) as [He|He].
  - rewrite decide_True; [done|]. by apply Hex.
  - rewrite decide_False; [done|]. by rewrite <- Hex.
Qed.

Lemma create_event_vector_lookup ev fs j :
  create_event_vector ev fs !! j
  = if decide (j < length fs)%nat
    then Some (if decide (index fs (get_text ev "main_category" "") = Some j
                          ∨ index fs (get_text ev "sub_category" "") = Some j)
               then 1 else 0)
    else [get_number ev "Latitude" 0; get_number ev "Longitude" 0]
           !! (j - length fs)%nat.
Proof.
  unfold create_event_vector. cbv zeta.
  set (u := at_label _ _ _ _).
  assert (length u = length fs) as Hlen.
  { unfold u. rewrite !length_at_label. apply length_replicate. }
  case_decide as Hj.
  - rewrite lookup_app_l by lia. unfold u. rewrite !at_label_lookup.
    unfold np_zeros. rewrite lookup_replicate_2 by done.
    repeat case_decide; simpl; try done; tauto.
  - rewrite lookup_app_r by lia. by rewrite Hlen.
Qed.

(** X1. Every cell of the event vector: a feature cell is [1] when it
    is the cell of the event's main category or of its subcategory and
    [0] otherwise; the two cells after them are the fields ["Latitude"]
    and ["Longitude"], [0] where the field is missing. *)
Theorem event_vector_cells ev fs j :
  create_event_vector ev fs !! j
  = if decide (j < length fs)%nat
    then Some (if decide (index fs (get_text ev "main_category" "") = Some j
                          ∨ index fs (get_text ev "sub_category" "") = Some j)
               then 1 else 0)
    else [get_number ev "Latitude" 0; get_number ev "Longitude" 0]
           !! (j - length fs)%nat.
Proof. apply create_event_vector_lookup. Qed.

(** X2. The user vector does not depend on the order of the interests,
    of the click-count entries or of the RSVP'd events, where the input
    keeps the cells exact in [float64]. *)
Theorem user_vector_order_independent {oid} (key : oid) email uid
    l l' c c' r r' fs :
  l ≡ₚ l' → c ≡ₚ c' → r ≡ₚ r' →
  float64_exact (UserProfile key email (Some l)) (ClickCounts uid (Some c)) r fs →
  create_user_vector (UserProfile key email (Some l))
    (ClickCounts uid (Some c)) r fs
  = create_user_vector (UserProfile key email (Some l'))
      (ClickCounts uid (Some c')) r' fs.
Proof.
  intros Hl Hc Hr _. apply list_eq. intros j.
  rewrite !create_user_vector_lookup. simpl.
  case_decide; [|done]. f_equal.
  rewrite (total_Permutation _ _ _ Hc), (total_Permutation _ _ _ Hr).
  rewrite (interest_flag_same_labels fs j l l'); [done|].
  intros x. by rewrite Hl.
Qed.

Lemma user_vector_order_independent_witness :
  create_user_vector
    (UserProfile "64b7f3a2c1d4e5f601234567" "hokie@vt.edu"
       (Some ["Music"; "Art"]))
    (ClickCounts "hokie@vt.edu"
       (Some [ SubcategoryInfo (Some "Music Festivals") (Some 3);
               SubcategoryInfo (Some "Music") (Some 5) ]))
    [concert; doubled] feature_space
  = create_user_vector
      (UserProfile "64b7f3a2c1d4e5f601234567" "hokie@vt.edu"
         (Some ["Art"; "Music"]))
      (ClickCounts "hokie@vt.edu"
         (Some [ SubcategoryInfo (Some "Music") (Some 5);
                 SubcategoryInfo (Some "Music Festivals") (Some 3) ]))
      [doubled; concert] feature_space.
Proof.
  apply (user_vector_order_independent (oid := string));
    [apply perm_swap|apply perm_swap|apply perm_swap|].
  split; [repeat constructor; simpl; lia|].
  apply (bool_decide_unpack _). by vm_compute.
Defined.

(** ** Inner products *)

Lemma dot_app a b c d :
  length a = length b → dot (a ++ c) (b ++ d) = dot a b + dot c d.
Proof.
  revert b. induction a as [|x a IH]; intros [|y b] Hlen; simpl in *;
    try done.
  rewrite IH by lia. lia.
Qed.

Lemma dot_nonneg_ge u v i x y :
  (∀ j a b, u !! j = Some a → v !! j = Some b → 0 ≤ a * b) →
  u !! i = Some x → v !! i = Some y → x * y ≤ dot u v.
Proof.
  revert v i. induction u as [|a u IH]; intros [|b v] i Hpos Hx Hy;
    try done.
  assert (0 ≤ a * b) as Hab by (by apply (Hpos 0%nat)).
  assert (∀ j a' b', u !! j = Some a' → v !! j = Some b' → 0 ≤ a' * b')
    as Hrest by (intros j; apply (Hpos (S j))).
  destruct i as [|i]; simpl in *.
  - simplify_eq.
    assert (0 ≤ dot u v); [|lia].
    clear -Hrest. revert v Hrest.
    induction u as [|a u IH]; intros [|b v] Hrest; simpl; try done.
    assert (0 ≤ a * b) by (by apply (Hrest 0%nat)).
    assert (0 ≤ dot u v); [|lia].
    apply IH. intros j. apply (Hrest (S j)).
  - specialize (IH v i Hrest Hx Hy). lia.
Qed.

Lemma length_user_features {oid} (profile : user_profile oid) clicks rsvp_counts fs :
  length (encode_rsvps fs rsvp_counts
            (encode_clicks fs (default [] (subCategories clicks))
               (encode_interests fs (default [] (interests profile))
                  (np_zeros (length fs))))) = length fs.
Proof.
  rewrite length_encode_rsvps, length_encode_clicks, length_encode_interests.
  apply length_replicate.
Qed.

(** X3. The coordinates of an event have no part in its inner product
    with a user vector: two events with the same text fields have the
    same inner product with every user, because the user's two trailing
    cells are always [0]. *)
Theorem coordinates_outside_inner_product {oid} (profile : user_profile oid)
    clicks rsvp_counts ev ev' fs :
  text ev = text ev' →
  drop (length fs) (create_user_vector profile clicks rsvp_counts fs) = [0; 0]
  ∧ dot (create_user_vector profile clicks rsvp_counts fs)
        (create_event_vector ev fs)
    = dot (create_user_vector profile clicks rsvp_counts fs)
          (create_event_vector ev' fs).
Proof.
  intros Htext. split.
  - unfold create_user_vector. cbv zeta.
    rewrite drop_app_length'; [done|]. symmetry. apply length_user_features.
  - unfold create_user_vector, create_event_vector, get_text. cbv zeta.
    rewrite Htext.
    rewrite !dot_app; [simpl; lia| |];
      rewrite length_user_features, !length_at_label; unfold np_zeros;
      by rewrite length_replicate.
Qed.

Lemma coordinates_outside_inner_product_witness :
  drop (length feature_space)
    (create_user_vector sample_profile sample_clicks [concert] feature_space)
  = [0; 0]
  ∧ dot (create_user_vector sample_profile sample_clicks [concert] feature_space)
        (create_event_vector
           (Event (text concert) {[ "Latitude" := 37; "Longitude" := -80 ]} [])
           feature_space)
    = dot (create_user_vector sample_profile sample_clicks [concert] feature_space)
          (create_event_vector (Event (text concert) ∅ []) feature_space).
Proof.
  apply (coordinates_outside_inner_product sample_profile). reflexivity.
Defined.

(** X4. An event whose main category or subcategory is a label of the
    feature space that the user lists as an interest has an inner product
    of at least [1] with the user's vector, when no click count is
    negative. *)
Theorem shared_interest_inner_product {oid} (profile : user_profile oid)
    clicks rsvp_counts ev fs label :
  label ∈ fs →
  label ∈ default [] (interests profile) →
  get_text ev "main_category" "" = label
  ∨ get_text ev "sub_category" "" = label →
  Forall (λ info, 0 ≤ default 0 (categoryCount info))
         (default [] (subCategories clicks)) →
  1 ≤ dot (create_user_vector profile clicks rsvp_counts fs)
          (create_event_vector ev fs).
Proof.
  intros [i Hi]%index_is_Some Hin Hev Hcounts.
  assert (∀ j, 0 ≤ total (click_weight fs j) (default [] (subCategories clicks)))
    as Hclicks.
  { intros j. apply total_nonneg. eapply Forall_impl; [exact Hcounts|].
    intros info Hc. unfold click_weight, cell_weight. simpl in Hc.
    case_decide; lia. }
  assert (∀ j, 0 ≤ total (rsvp_weight fs j) rsvp_counts) as Hrsvps.
  { intros j. apply total_nonneg, Forall_forall. intros e _.
    unfold rsvp_weight, cell_weight. repeat case_decide; lia. }
  assert (∀ j, 0 ≤ interest_flag fs j (default [] (interests profile)))
    as Hflag.
  { intros j. unfold interest_flag. case_decide; lia. }
  pose proof (index_lt _ _ _ Hi) as Hlt.
  transitivity
    ((1 + total (click_weight fs i) (default [] (subCategories clicks))
      + total (rsvp_weight fs i) rsvp_counts) * 1).
  { specialize (Hclicks i). specialize (Hrsvps i). lia. }
  apply (dot_nonneg_ge _ _ i).
  - intros j a b. rewrite create_user_vector_lookup, create_event_vector_lookup.
    case_decide as Hj.
    + intros [= <-] [= <-].
      specialize (Hclicks j). specialize (Hrsvps j). specialize (Hflag j).
      case_decide; lia.
    + destruct (j - length fs)%nat as [|[|k]]; simpl; [| |done];
        intros [= <-] _; lia.
  - rewrite create_user_vector_lookup, decide_True by done.
    rewrite (interest_flag_label _ _ _ _ Hi), decide_True by done. done.
  - rewrite create_event_vector_lookup, decide_True by done.
    rewrite decide_True; [done|]. destruct Hev as [->| ->]; [by left|by right].
Qed.

Lemma shared_interest_inner_product_witness :
  1 ≤ dot (create_user_vector sample_profile sample_clicks [] feature_space)
          (create_event_vector concert feature_space).
Proof.
  apply (shared_interest_inner_product sample_profile sample_clicks []
           concert feature_space "Music").
  - apply index_is_Some. by eexists.
  - by left.
  - by left.
  - repeat constructor; simpl; lia.
Defined.

(** * Further properties of the keyword classifier *)

Lemma append_cons x (a b : string) : String x a +:+ b = String x (a +:+ b).
Proof. reflexivity. Qed.

Lemma append_empty (b : string) : "" +:+ b = b.
Proof. reflexivity. Qed.

Lemma append_assoc (a b c : string) : (a +:+ b) +:+ c = a +:+ b +:+ c.
Proof.
  induction a as [|x a IH]; [done|]. rewrite !append_cons. by f_equal.
Qed.

Lemma starts_with_spec kw s :
  starts_with kw s = true ↔ ∃ post, s = kw +:+ post.
Proof.
  revert s. induction kw as [|a kw IH]; intros s; simpl.
  - split; [by exists s|done].
  - destruct s as [|b s].
    + split; [done|]. intros [post Hp]. by rewrite append_cons in Hp.
    + case_decide as Hab.
      * subst b. rewrite IH. split; intros [post Hp]; exists post.
        -- by rewrite append_cons, Hp.
        -- rewrite append_cons in Hp. by injection Hp.
      * split; [done|]. intros [post Hp]. rewrite append_cons in Hp.
        injection Hp as Hb _. by destruct Hab.
Qed.

Lemma contains_spec s kw :
  contains s kw = true ↔ ∃ pre post, s = pre +:+ kw +:+ post.
Proof.
  induction s as [|c s IH]; simpl.
  - rewrite orb_false_r, starts_with_spec. split.
    + intros [post Hp]. by exists "", post.
    + intros (pre & post & Hp). exists post.
      destruct pre; [done|]. by rewrite append_cons in Hp.
  - rewrite orb_true_iff, starts_with_spec, IH. split.
    + intros [[post Hp]|(pre & post & Hp)].
      * by exists "", post.
      * exists (String c pre), post. by rewrite append_cons, Hp.
    + intros ([|c' pre] & post & Hp).
      * left. by exists post.
      * right. exists pre, post. rewrite append_cons in Hp. by injection Hp.
Qed.

Lemma contains_trans s a b :
  contains s a = true → contains a b = true → contains s b = true.
Proof.
  rewrite !contains_spec.
  intros (p1 & q1 & ->) (p2 & q2 & ->).
  exists (p1 +:+ p2), (q2 +:+ q1). by rewrite !append_assoc.
Qed.

Lemma any_keyword_elem text keywords kw :
  kw ∈ keywords → contains text kw = true → any_keyword text keywords = true.
Proof.
  intros Hin Hc. unfold any_keyword. apply existsb_exists.
  exists kw. split; [by apply list_elem_of_In|done].
Qed.

(** X5. A rule matches a text exactly when one of its keywords occurs
    in it as a contiguous substring, whatever stands before and after it:
    the test is not by word. *)
Theorem keyword_match_is_substring text keywords :
  any_keyword text keywords = true
  ↔ ∃ kw pre post, kw ∈ keywords ∧ text = pre +:+ kw +:+ post.
Proof.
  unfold any_keyword. rewrite existsb_exists. split.
  - intros (kw & Hin%list_elem_of_In & (pre & post & ->)%contains_spec).
    by exists kw, pre, post.
  - intros (kw & pre & post & Hin & ->). exists kw.
    split; [by apply list_elem_of_In|]. apply contains_spec. by eexists _, _.
Qed.

(** The category of the answer is the default or comes from a rule. *)
Lemma infer_category_from_title_cases lower event_data :
  ∃ result,
    infer_category_from_title lower event_data = Some result
    ∧ subcategory_mappings !! main_category result = Some (sub_category result)
    ∧ enhanced_description result
      = or_else (description event_data)
          ("Join us for " +:+ title event_data +:+ " at "
           +:+ venue event_data +:+ "!")
    ∧ (first_match (combined_text lower event_data) category_keywords
       = Some (main_category result)
       ∨ first_match (combined_text lower event_data) category_keywords = None
         ∧ main_category result = "Others").
Proof.
  unfold infer_category_from_title. cbv zeta.
  destruct (first_match _ _) as [cat|] eqn:Hfm.
  - destruct (subcategory_mappings_total cat) as [sub Hsub].
    { by eapply first_match_rule. }
    rewrite Hsub. simpl. eexists. split; [done|]. simpl. by split_and!; [| |left].
  - eexists. split; [done|]. simpl. by split_and!; [| |right].
Qed.

Lemma mapped_subcategory cat sub :
  subcategory_mappings !! cat = Some sub →
  cat ∈ categories ∧ sub ∈ subcategories.
Proof.
  intros Hsub.
  assert (cat ∈ categories) as Hcat.
  { assert (cat ∈ (map_to_list subcategory_mappings).*1) as Hin.
    { apply list_elem_of_fmap. exists (cat, sub).
      split; [done|]. by apply elem_of_map_to_list. }
    revert Hin. apply (Forall_forall (λ c, c ∈ categories)).
    apply (bool_decide_unpack _). by vm_compute. }
  split; [done|].
  unfold categories in Hcat.
  repeat (apply elem_of_cons in Hcat as [->|Hcat]);
    try (by apply elem_of_nil in Hcat);
    vm_compute in Hsub; injection Hsub as <-;
    apply (bool_decide_unpack _); by vm_compute.
Qed.

(** X6. The keyword classifier always answers, and its answer lies in
    the feature space of the recommender: the main category is one of the
    nine categories, the subcategory is the one [subcategory_mappings]
    gives for it and is one of the subcategories, and the description is
    never empty: it is the event's own description when that is not
    empty, and the sentence built from the title and the venue
    otherwise. *)
Theorem classifier_answer_in_feature_space (lower : string → string)
    (event_data : event_data) :
  ∃ result i k,
    infer_category_from_title lower event_data = Some result
    ∧ subcategory_mappings !! main_category result = Some (sub_category result)
    ∧ index feature_space (main_category result) = Some i
    ∧ (i < 9)%nat
    ∧ index feature_space (sub_category result) = Some k
    ∧ (9 ≤ k < 33)%nat
    ∧ (0 < String.length (enhanced_description result))%nat
    ∧ enhanced_description result
      = match description event_data with
        | Some (String a d) => String a d
        | _ => "Join us for " +:+ title event_data +:+ " at "
               +:+ venue event_data +:+ "!"
        end.
Proof.
  destruct (infer_category_from_title_cases lower event_data)
    as (result & Hres & Hsub & Hdesc & _).
  destruct (mapped_subcategory _ _ Hsub) as [Hcat Hs].
  assert (∃ i, index feature_space (main_category result) = Some i ∧ (i < 9)%nat)
    as (i & Hi & Hlt).
  { revert Hcat. generalize (main_category result).
    apply (Forall_forall
             (λ c, ∃ i, index feature_space c = Some i ∧ (i < 9)%nat)).
    unfold categories. repeat constructor; eexists; (split; [reflexivity|lia]). }
  assert (∃ k, index feature_space (sub_category result) = Some k
               ∧ (9 ≤ k < 33)%nat) as (k & Hk & Hkb).
  { revert Hs. generalize (sub_category result).
    apply (Forall_forall
             (λ c, ∃ k, index feature_space c = Some k ∧ (9 ≤ k < 33)%nat)).
    unfold subcategories.
    repeat constructor; eexists; (split; [reflexivity|lia]). }
  exists result, i, k. split_and!; try done; try lia.
  rewrite Hdesc. destruct (description event_data) as [[|a d]|]; simpl; lia.
Qed.

(** X7. Three keywords can never decide: a text with ["esports"] or
    ["board games"] has ["sports"] or ["game"] in it and is classified
    Technology or Sports, never Gaming; a text with ["party"] has ["art"]
    in it and is classified by the Art rule or an earlier one, never
    Social Events. *)
Theorem shadowed_keywords (lower : string → string) (event_data : event_data)
    (result : categorization) :
  infer_category_from_title lower event_data = Some result →
  ((contains (combined_text lower event_data) "esports" = true
    ∨ contains (combined_text lower event_data) "board games" = true) →
   main_category result = "Technology" ∨ main_category result = "Sports")
  ∧ (contains (combined_text lower event_data) "party" = true →
     main_category result = "Technology" ∨ main_category result = "Sports"
     ∨ main_category result = "Music" ∨ main_category result = "Art").
Proof.
  intros Hres.
  destruct (infer_category_from_title_cases lower event_data)
    as (result' & Hres' & _ & _ & Hfm).
  rewrite Hres in Hres'. injection Hres' as <-.
  set (text := combined_text lower event_data) in *.
  split.
  - intros Hkw.
    assert (any_keyword text
              ["game"; "sports"; "basketball"; "football"; "baseball";
               "hockey"; "match"; "tournament"; "team"; "adventure"] = true)
      as Hsports.
    { destruct Hkw as [Hkw|Hkw].
      - apply (any_keyword_elem _ _ "sports");
          [by apply (bool_decide_unpack _)|].
        by apply (contains_trans _ _ _ Hkw).
      - apply (any_keyword_elem _ _ "game"); [by left|].
        by apply (contains_trans _ _ _ Hkw). }
    unfold category_keywords in Hfm. cbn [first_match] in Hfm.
    rewrite Hsports in Hfm.
    destruct (any_keyword text _); destruct Hfm as [[= <-]|[[=] _]]; auto.
  - intros Hkw.
    assert (any_keyword text
              ["festival"; "art"; "exhibition"; "museum"; "performing";
               "workshop"] = true) as Hart.
    { apply (any_keyword_elem _ _ "art"); [by apply (bool_decide_unpack _)|].
      by apply (contains_trans _ _ _ Hkw). }
    unfold category_keywords in Hfm. cbn [first_match] in Hfm.
    rewrite Hart in Hfm.
    repeat (destruct (any_keyword text _); [destruct Hfm as [[= <-]|[[=] _]]; auto|]).
    destruct Hfm as [[= <-]|[[=] _]]; auto.
Qed.

Lemma shadowed_keywords_witness :
  ∃ result,
    infer_category_from_title str_lower
      (EventData "Campus eSports Finals" None "Squires") = Some result
    ∧ (main_category result = "Technology" ∨ main_category result = "Sports").
Proof.
  eexists. split; [reflexivity|].
  apply (shadowed_keywords str_lower
           (EventData "Campus eSports Finals" None "Squires") _ eq_refl).
  left. reflexivity.
Defined.

(** * Properties of the GPT categorizer *)

Lemma inline_fallback_category event_text :
  (inline_fallback event_text).1 ∈ categories.
Proof.
  unfold inline_fallback.
  repeat (destruct (any_keyword event_text _);
          [apply (bool_decide_unpack _); by vm_compute|]).
  apply (bool_decide_unpack _). by vm_compute.
Qed.

Lemma infer_category_from_title_category lower event_data :
  ∃ result,
    infer_category_from_title lower event_data = Some result
    ∧ main_category result ∈ categories.
Proof.
  destruct (infer_category_from_title_cases lower event_data)
    as (result & Hres & Hsub & _).
  exists result. split; [done|]. by eapply mapped_subcategory.
Qed.

Section CategorizerFacts.
Variable lower : string → string.
Variable len : string → nat.

Lemma categorize_with_gpt_answer (reply : gpt_reply)
    (event_data : event_data) :
  ∃ result,
    categorize_with_gpt lower len reply event_data = Some result
    ∧ main_category result ∈ categories.
Proof.
  destruct reply as [| | |r]; simpl;
    try apply infer_category_from_title_category.
  destruct (gpt_validated lower len r event_data) as [res|] eqn:Hres;
    [|apply infer_category_from_title_category].
  exists res. split; [done|].
  unfold gpt_validated in Hres.
  destruct (gpt_main_category r) as [main|]; simpl in Hres; [|done].
  destruct (bool_decide (main ∈ main_categories)) eqn:Hmain.
  - apply bool_decide_eq_true in Hmain.
    destruct (gpt_sub_category r) as [sub|]; simpl in Hres; [|done].
    by injection Hres as <-.
  - pose proof (inline_fallback_category
                  (lower (title event_data +:+ " "
                          +:+ default "" (description event_data)))) as Hin.
    destruct (inline_fallback _) as [m s]. simpl in Hres.
    by injection Hres as <-.
Qed.

(** X8. Whatever the request to the model comes back with,
    [categorize_with_gpt] answers, and the main category of its answer is
    one of the nine categories. *)
Theorem categorize_with_gpt_category (reply : gpt_reply)
    (event_data : event_data) :
  ∃ result,
    categorize_with_gpt lower len reply event_data = Some result
    ∧ main_category result ∈ categories.
Proof. apply categorize_with_gpt_answer. Qed.

(** X9. Only the main category of a reply is validated: a reply with a
    main category of the list and any subcategory at all is answered with
    that pair. *)
Theorem categorize_with_gpt_keeps_subcategory (main sub : string)
    (desc : option string) (event_data : event_data) :
  main ∈ main_categories →
  ∃ result,
    categorize_with_gpt lower len
      (Reply (GptResult (Some main) (Some sub) desc)) event_data
    = Some result
    ∧ main_category result = main
    ∧ sub_category result = sub.
Proof.
  intros Hmain. simpl. unfold gpt_validated. simpl.
  rewrite bool_decide_eq_true_2 by done. simpl. by eexists.
Qed.

(** X10. A reply that cannot be used is answered by the keyword
    classifier: a failed request, a response without message, a message
    that is not JSON, an object without ["main_category"], and an object
    with a main category of the list and no ["sub_category"]. An object
    with a main category outside the list is answered by the inline
    keyword chain, with or without a subcategory of its own. *)
Theorem categorize_with_gpt_fallbacks (event_data : event_data) :
  categorize_with_gpt lower len RequestFailed event_data
  = infer_category_from_title lower event_data
  ∧ categorize_with_gpt lower len NoMessage event_data
    = infer_category_from_title lower event_data
  ∧ categorize_with_gpt lower len NotJson event_data
    = infer_category_from_title lower event_data
  ∧ (∀ sub desc,
       categorize_with_gpt lower len
         (Reply (GptResult None sub desc)) event_data
       = infer_category_from_title lower event_data)
  ∧ (∀ main desc,
       main ∈ main_categories →
       categorize_with_gpt lower len
         (Reply (GptResult (Some main) None desc)) event_data
       = infer_category_from_title lower event_data)
  ∧ (∀ main sub desc,
       main ∉ main_categories →
       ∃ result,
         categorize_with_gpt lower len
           (Reply (GptResult (Some main) sub desc)) event_data
         = Some result
         ∧ (main_category result, sub_category result)
           = inline_fallback
               (lower (title event_data +:+ " "
                       +:+ default "" (description event_data)))).
Proof.
  split_and!; try done.
  - intros main desc Hmain. simpl. unfold gpt_validated. simpl.
    by rewrite bool_decide_eq_true_2.
  - intros main sub desc Hmain. simpl. unfold gpt_validated. simpl.
    rewrite bool_decide_eq_false_2 by done.
    destruct (inline_fallback _) as [m s]. simpl. by eexists.
Qed.

(** X11. The description of an answer built from a reply is the reply's
    own description when that has at least 50 characters, and the
    generated one when the reply has no description, an empty one, or one
    of fewer than 50 characters. *)
Theorem categorize_with_gpt_description (r : gpt_result)
    (event_data : event_data) (result : categorization) :
  gpt_validated lower len r event_data = Some result →
  (∀ d, gpt_description r = Some d → d ≠ "" → (50 ≤ len d)%nat →
        enhanced_description result = d)
  ∧ (gpt_description r = None ∨ gpt_description r = Some ""
     ∨ (∃ d, gpt_description r = Some d ∧ (len d < 50)%nat) →
     enhanced_description result
     = generated_description lower event_data
         (main_category result) (sub_category result)).
Proof.
  unfold gpt_validated.
  destruct (gpt_main_category r) as [main|]; simpl; [|done].
  destruct (if bool_decide (main ∈ main_categories) then _ else _)
    as [m [s|]]; simpl; [|done].
  intros [= <-]. simpl.
  destruct (gpt_description r) as [[|a d]|]; split.
  - by intros d' [= <-] Hne.
  - done.
  - intros d' [= <-] _ Hlen.
    apply Nat.ltb_ge in Hlen. by rewrite Hlen.
  - intros [?|[?|(d' & [= <-] & Hlen)]]; [done|done|].
    apply Nat.ltb_lt in Hlen. by rewrite Hlen.
  - done.
  - done.
Qed.
End CategorizerFacts.

Lemma categorize_with_gpt_keeps_subcategory_witness :
  ∃ result,
    categorize_with_gpt str_lower String.length
      (Reply (GptResult (Some "Music") (Some "Music") None))
      (EventData "Open Mic" None "Squires") = Some result
    ∧ main_category result = "Music"
    ∧ sub_category result = "Music".
Proof.
  apply (categorize_with_gpt_keeps_subcategory str_lower String.length
           "Music" "Music" None (EventData "Open Mic" None "Squires")).
  apply (bool_decide_unpack _). by vm_compute.
Defined.

Lemma categorize_with_gpt_description_witness :
  ∃ kept generated,
    gpt_validated str_lower String.length
      (GptResult (Some "Music") (Some "Music Festivals")
         (Some "Three days of live music on the Drillfield, with food trucks."))
      (EventData "Open Mic" None "Squires") = Some kept
    ∧ enhanced_description kept
      = "Three days of live music on the Drillfield, with food trucks."
    ∧ gpt_validated str_lower String.length
        (GptResult (Some "Music") (Some "Music Festivals") (Some "Short"))
        (EventData "Open Mic" None "Squires") = Some generated
    ∧ enhanced_description generated
      = generated_description str_lower (EventData "Open Mic" None "Squires")
          (main_category generated) (sub_category generated).
Proof.
  eexists _, _. split; [reflexivity|]. split; [|split; [reflexivity|]].
  - apply (categorize_with_gpt_description str_lower String.length
             (GptResult (Some "Music") (Some "Music Festivals")
                (Some "Three days of live music on the Drillfield, with food trucks."))
             (EventData "Open Mic" None "Squires") _ eq_refl);
      [reflexivity|done|simpl; lia].
  - apply (categorize_with_gpt_description str_lower String.length
             (GptResult (Some "Music") (Some "Music Festivals") (Some "Short"))
             (EventData "Open Mic" None "Squires") _ eq_refl).
    right. right. exists "Short". split; [reflexivity|simpl; lia].
Defined.

(** * Properties of ingestion, deduplication and storage *)

Lemma category_cell cat :
  cat ∈ categories →
  ∃ i, (i < 9)%nat ∧ categories !! i = Some cat
       ∧ index feature_space cat = Some i.
Proof.
  revert cat.
  apply (Forall_forall
           (λ c, ∃ i, (i < 9)%nat ∧ categories !! i = Some c
                      ∧ index feature_space c = Some i)).
  unfold categories.
  repeat (apply Forall_cons; split;
          [eexists; split_and!; [| |reflexivity]; [|reflexivity]; lia|]).
  apply Forall_nil_2.
Qed.

Lemma process_ticketmaster_event_text categorize tm ev :
  process_ticketmaster_event categorize tm = Some ev →
  ∃ enhanced,
    categorize
      (EventData (default "" (name tm)) (Some (default "" (tm_description tm)))
         (default "Venue Not Specified" (venue_name tm))) = Some enhanced
    ∧ text ev !! "main_category" = Some (main_category enhanced)
    ∧ text ev !! "title" = Some (default "" (name tm))
    ∧ text ev !! "id" = None.
Proof.
  unfold process_ticketmaster_event.
  destruct (categorize _) as [enhanced|]; simpl; [|done].
  intros [= <-]. exists enhanced. simpl. split_and!; try done.
Qed.

(** X12. Every document the ingestion path builds, whatever the model
    replied, has a main category among the nine categories, and its
    vector has [1] in the cell of that category: no ingested event has an
    all-zero feature part. *)
Theorem ingested_event_has_category_flag (lower : string → string)
    (len : string → nat) (reply : gpt_reply) (tm : ticketmaster_event)
    (ev : event) :
  process_ticketmaster_event (categorize_with_gpt lower len reply) tm = Some ev →
  ∃ i,
    (i < 9)%nat
    ∧ text ev !! "main_category" = categories !! i
    ∧ create_event_vector ev feature_space !! i = Some 1.
Proof.
  intros Hev.
  set (event_data :=
         EventData (default "" (name tm)) (Some (default "" (tm_description tm)))
           (default "Venue Not Specified" (venue_name tm))).
  destruct (categorize_with_gpt_answer lower len reply event_data)
    as (enhanced & Hres & Hcat).
  destruct (process_ticketmaster_event_text _ _ _ Hev)
    as (enhanced' & Hres' & Hmain & _).
  fold event_data in Hres'. rewrite Hres in Hres'. injection Hres' as <-.
  destruct (category_cell _ Hcat) as (i & Hlt & Hi & Hidx).
  exists i. split_and!; try done; [congruence|].
  rewrite create_event_vector_lookup.
  rewrite decide_True by (change (length feature_space) with 33%nat; lia).
  rewrite decide_True; [done|]. left. unfold get_text. by rewrite Hmain.
Qed.

Lemma ingested_event_has_category_flag_witness :
  ∃ ev i,
    process_ticketmaster_event
      (categorize_with_gpt str_lower String.length
         (Reply (GptResult (Some "Concerts") (Some "Jazz") None)))
      sample_feed = Some ev
    ∧ (i < 9)%nat
    ∧ text ev !! "main_category" = categories !! i
    ∧ create_event_vector ev feature_space !! i = Some 1.
Proof.
  eexists.
  destruct (ingested_event_has_category_flag str_lower String.length
              (Reply (GptResult (Some "Concerts") (Some "Jazz") None))
              sample_feed _ eq_refl) as (i & Hi).
  exists i. split; [reflexivity|exact Hi].
Defined.

Lemma truthy_true s : truthy s = true ↔ ∃ a d, s = Some (String a d).
Proof.
  destruct s as [[|a d]|]; simpl; split; try done; eauto;
    by intros (? & ? & ?).
Qed.





(** The name is what decides: the same entry with a name, stored with
    the same start date, is recognised. *)
Example named_entry_is_duplicate :
  ∃ ev,
    process_ticketmaster_event (infer_category_from_title str_lower)
      sample_feed = Some ev
    ∧ is_duplicate_event
        [Event (text ev) (<["startDate" := 20250412]> (number ev)) (rsvps ev)]
        (Event (text ev) (<["startDate" := 20250412]> (number ev)) (rsvps ev))
      = true.
Proof. eexists. split; reflexivity. Qed.

(** X15. Storing is idempotent on a document with a title, a venue and a
    start date: once [categorize_ticketmaster_event] has handled it, a
    second call with the same document, at any later time, returns
    nothing and leaves the collection as it is. *)
Theorem storing_twice_stores_once t1 id1 t2 id2 db_events processed_event :
  truthy (text processed_event !! "title") = true →
  is_Some (number processed_event !! "startDate") →
  truthy (text processed_event !! "venue") = true →
  categorize_ticketmaster_event t2 id2
    (categorize_ticketmaster_event t1 id1 db_events (Some processed_event)).1
    (Some processed_event)
  = ((categorize_ticketmaster_event t1 id1 db_events (Some processed_event)).1,
     None).
Proof.
  intros Htitle Hdate Hvenue.
  unfold categorize_ticketmaster_event at 2 3.
  destruct (is_duplicate_event db_events processed_event) eqn:Hdup; simpl.
  - by rewrite Hdup.
  - set (stored := Event _ _ _).
    assert (is_duplicate_event (db_events ++ [stored]) processed_event = true)
      as ->; [|done].
    unfold is_duplicate_event. cbv zeta.
    destruct (_ && _); [done|].
    rewrite Htitle, Hvenue, (bool_decide_eq_true_2 _ Hdate). simpl.
    apply bool_decide_eq_true. apply Exists_app. right. apply Exists_cons. left.
    unfold stored. simpl.
    by rewrite !lookup_insert_ne.
Qed.

Lemma storing_twice_stores_once_witness :
  categorize_ticketmaster_event 200 "64b7f3a2c1d4e5f601234570"
    (categorize_ticketmaster_event 100 "64b7f3a2c1d4e5f60123456f" []
       (Some (Event {[ "title" := "Spring Concert"; "venue" := "Burruss Hall" ]}
                    {[ "startDate" := 20250412 ]} []))).1
    (Some (Event {[ "title" := "Spring Concert"; "venue" := "Burruss Hall" ]}
                 {[ "startDate" := 20250412 ]} []))
  = ((categorize_ticketmaster_event 100 "64b7f3a2c1d4e5f60123456f" []
        (Some (Event {[ "title" := "Spring Concert"; "venue" := "Burruss Hall" ]}
                     {[ "startDate" := 20250412 ]} []))).1,
     None).
Proof.
  apply storing_twice_stores_once; [reflexivity|by eexists|reflexivity].
Defined.

(** X16. [categorize_ticketmaster_event] never changes or removes a
    stored event: the collection afterwards is the collection before,
    followed by at most the one document it returns; it returns nothing
    exactly when it stores nothing. The stored document keeps the text
    fields, number fields and RSVPs it was given, apart from its new
    identifier and the two timestamps, which are equal. *)
Theorem storing_only_appends current_time inserted_id db_events processed_event :
  let after :=
    categorize_ticketmaster_event current_time inserted_id db_events
      processed_event in
  after.1 = db_events ++ option_list after.2
  ∧ (∀ stored key,
       after.2 = Some stored →
       ∃ given,
         processed_event = Some given
         ∧ is_duplicate_event db_events given = false
         ∧ rsvps stored = rsvps given
         ∧ text stored !! "_id" = Some inserted_id
         ∧ number stored !! "createdAt" = Some current_time
         ∧ number stored !! "updatedAt" = Some current_time
         ∧ (key ≠ "_id" → text stored !! key = text given !! key)
         ∧ (key ≠ "createdAt" → key ≠ "updatedAt" →
            number stored !! key = number given !! key)).
Proof.
  unfold categorize_ticketmaster_event.
  destruct processed_event as [given|]; simpl.
  - destruct (is_duplicate_event db_events given) eqn:Hdup; simpl.
    + split; [by rewrite app_nil_r|done].
    + split; [done|]. intros stored key [= <-]. exists given. simpl.
      split_and!; try done.
      * by rewrite lookup_insert_eq.
      * by rewrite lookup_insert_ne, lookup_insert_eq.
      * by rewrite lookup_insert_eq.
      * intros Hk. by rewrite lookup_insert_ne.
      * intros Hc Hu. by rewrite !lookup_insert_ne.
  - split; [by rewrite app_nil_r|done].
Qed.

(** ** The registration fee *)

Lemma foldl_Qmin_le m ms :
  (foldl Qmin m ms <= m)%Q ∧ Forall (λ x, (foldl Qmin m ms <= x)%Q) ms.
Proof.
  revert m. induction ms as [|x ms IH]; intros m; simpl.
  - split; [apply Qle_refl|constructor].
  - destruct (IH (Qmin m x)) as [Hm Hms]. split_and!.
    + eapply Qle_trans; [exact Hm|apply Q.le_min_l].
    + constructor; [|done]. eapply Qle_trans; [exact Hm|apply Q.le_min_r].
Qed.

Lemma Qmin_either m x : Qmin m x = m ∨ Qmin m x = x.
Proof. unfold Qmin, GenericMinMax.gmin. destruct (m ?= x)%Q; auto. Qed.

Lemma foldl_Qmin_elem m ms : foldl Qmin m ms ∈ m :: ms.
Proof.
  revert m. induction ms as [|x ms IH]; intros m; simpl; [by left|].
  specialize (IH (Qmin m x)).
  apply elem_of_cons in IH as [->|IH].
  - destruct (Qmin_either m x) as [-> | ->]; [by left|right; by left].
  - right. by right.
Qed.

(** X17. The registration fee is the smallest ['min'] of the price
    ranges: it is one of them and none is below it. It is [0] when the
    entry has no price ranges, an empty list of them, or a range without
    ['min']. *)
Theorem registration_fee_is_cheapest :
  (∀ m ms,
     registration_fee (Some (Some <$> m :: ms)) ∈ m :: ms
     ∧ Forall (λ x, (registration_fee (Some (Some <$> m :: ms)) <= x)%Q)
              (m :: ms))
  ∧ registration_fee None = 0%Q
  ∧ registration_fee (Some []) = 0%Q
  ∧ (∀ ranges, None ∈ ranges → registration_fee (Some ranges) = 0%Q).
Proof.
  split_and!; try done.
  - intros m ms.
    assert (registration_fee (Some (Some <$> m :: ms)) = foldl Qmin m ms)
      as ->.
    { unfold registration_fee. rewrite fmap_cons.
      assert (mapM id (Some m :: (Some <$> ms)) = Some (m :: ms)) as ->; [|done].
      apply mapM_Some. constructor; [done|].
      induction ms; constructor; done. }
    destruct (foldl_Qmin_le m ms). split; [apply foldl_Qmin_elem|].
    by constructor.
  - intros ranges Hnone. unfold registration_fee.
    destruct ranges as [|price prices]; [done|].
    assert (mapM id (price :: prices) = None) as ->; [|done].
    apply mapM_None. apply Exists_exists. by exists None.
Qed.

Lemma registration_fee_is_cheapest_witness :
  registration_fee
    (Some [Some (45 # 1); Some (25 # 2); Some (30 # 1)])%Q = (25 # 2)%Q
  ∧ registration_fee (Some [Some (45 # 1); None])%Q = 0%Q.
Proof.
  destruct registration_fee_is_cheapest as (Hmin & _ & _ & Hnone).
  split.
  - reflexivity.
  - apply Hnone. right. by left.
Defined.

(** * Isolation of users in the endpoint *)



Section Isolation.
Context {oid : Type} `{EqDecision oid}.
Variable ObjectId : string → option oid.
Variable distance : list Z → list Z → Q.



End Isolation.


(** * Worked examples *)

(** The scenario of a two-label feature space: the event and the user
    both encode to [1, 0, 0, 0]. *)
Example two_label_scenario :
  create_event_vector
    (Event {[ "main_category" := "Music"; "sub_category" := "" ]}
           {[ "Latitude" := 0; "Longitude" := 0 ]} [])
    ["Music"; "Sports"] = [1; 0; 0; 0]
  ∧ create_user_vector
      (UserProfile "64b7f3a2c1d4e5f601234567" "hokie@vt.edu" (Some ["Music"]))
      no_clicks [] ["Music"; "Sports"] = [1; 0; 0; 0].
Proof. by split. Qed.

(** The user vector of the sample user, who RSVP'd to two events. *)
Example sample_user_vector :
  create_user_vector sample_profile sample_clicks [concert; doubled]
    feature_space
  = [0; 0; 12; 0; 0; 0; 0; 0; 0; 0; 0; 0; 0; 0; 0; 0; 2; 3; 0; 0; 0; 0; 0;
     0; 0; 0; 0; 0; 0; 0; 0; 0; 0; 0; 0].
Proof. reflexivity. Qed.

(** The encoder does read coordinates stored under capitalised keys. *)
Example capitalised_coordinates_are_encoded :
  drop 33 (create_event_vector unlabelled feature_space) = [37; -80].
Proof. reflexivity. Qed.

(** A successful request: the two nearest events, nearest first. *)
Example sample_request :
  recommend_events hex_object_id squared_euclidean sample_db
    "64b7f3a2c1d4e5f601234567" 2
  = inr [ Recommendation "Spring Concert" (inject_Z 131);
          Recommendation "Open Mic" (inject_Z 134) ].
Proof. by vm_compute. Qed.

(** A malformed identifier is answered with a 500 as well. *)
Example malformed_identifier :
  recommend_events hex_object_id squared_euclidean sample_db "xyz" 2
  = inl (HTTPException 500).
Proof. reflexivity. Qed.

(** ["art"] occurs in ["party"]: the Art rule comes before the Social
    Events rule and wins. *)
Example party_is_art :
  infer_category_from_title str_lower (EventData "Block Party" None "Drillfield")
  = Some (Categorization "Art" "Art Exhibitions & Workshops"
            "Join us for Block Party at Drillfield!").
Proof. reflexivity. Qed.
